(** * mypyllant sensor platform: a shallow embedding of
      custom_components/mypyllant/sensor.py

    The file follows the Python module top to bottom: the Python values the
    module handles, the myPyllant model objects it reads, the two polling
    coordinators, the sensor classes with their property accessors, and the
    two factory functions.  The statements about the module come last. *)

From Stdlib Require Import ZArith String Ascii Floats DecimalString DecimalZ.
From stdpp Require Import base option list gmap strings.

Local Open Scope string_scope.

(** ** Python values, exceptions and builtins *)

(** The exceptions the accessors can raise. *)
Inductive PyExc :=
| IndexError
| KeyError
| TypeError
| ZeroDivisionError.

(** A Python expression either returns or raises. *)
Inductive Result (A : Type) :=
| Ok (a : A)
| Raise (e : PyExc).
Arguments Ok {A} a.
Arguments Raise {A} e.

Global Instance Result_ret : MRet Result := λ A a, Ok a.
Global Instance Result_bind : MBind Result := λ A B f m,
  match m with
  | Ok a => f a
  | Raise e => Raise e
  end.

(** The dynamically typed values that sensors hand to the framework. *)
Inductive PyVal :=
| PyNone
| PyFloat (f : float)
| PyStr (s : string)
| PyInt (z : Z).

Definition of_float (o : option float) : PyVal :=
  match o with
  | Some f => PyFloat f
  | None => PyNone
  end.

Definition of_str (o : option string) : PyVal :=
  match o with
  | Some s => PyStr s
  | None => PyNone
  end.

(** [l[i]] on a list, for the non-negative indices that [enumerate] yields. *)
Definition list_getitem {A} (l : list A) (i : nat) : Result A :=
  match l !! i with
  | Some x => Ok x
  | None => Raise IndexError
  end.

(** [l[-1]] on a non-empty list. *)
Definition list_last {A} (l : list A) : Result A :=
  match last l with
  | Some x => Ok x
  | None => Raise IndexError
  end.

(** A [dict] with string keys whose iteration order matters is the list of
    its items in insertion order. *)
Definition dict (V : Type) : Type := list (string * V).

Fixpoint dict_get {V} (d : dict V) (k : string) : option V :=
  match d with
  | [] => None
  | (k', v) :: d' => if String.eqb k' k then Some v else dict_get d' k
  end.

Definition dict_getitem {V} (d : dict V) (k : string) : Result V :=
  match dict_get d k with
  | Some v => Ok v
  | None => Raise KeyError
  end.

Definition dict_contains {V} (d : dict V) (k : string) : bool :=
  bool_decide (is_Some (dict_get d k)).

Definition dict_keys {V} (d : dict V) : list string := d.*1.

(** [enumerate(l)] *)
Definition enumerate {A} (l : list A) : list (nat * A) := imap pair l.

(** [str(n)] for an [int]. *)
Definition str_of_int (z : Z) : string := NilZero.string_of_int (Z.to_int z).
Definition str_of_nat (n : nat) : string := str_of_int (Z.of_nat n).

(** [s.replace(old, new)] for one-character [old] and [new]. *)
Fixpoint replace (old new : ascii) (s : string) : string :=
  match s with
  | EmptyString => EmptyString
  | String c s' => String (if Ascii.eqb c old then new else c) (replace old new s')
  end.

Definition is_lower (c : ascii) : bool :=
  let n := nat_of_ascii c in (97 <=? n)%nat && (n <=? 122)%nat.
Definition is_upper (c : ascii) : bool :=
  let n := nat_of_ascii c in (65 <=? n)%nat && (n <=? 90)%nat.
Definition to_upper (c : ascii) : ascii :=
  if is_lower c then ascii_of_nat (nat_of_ascii c - 32) else c.
Definition to_lower (c : ascii) : ascii :=
  if is_upper c then ascii_of_nat (nat_of_ascii c + 32) else c.

(** [s.title()] on ASCII text: a letter that follows a letter is lowered,
    any other letter is raised; characters outside [A-Za-z] are uncased.
    Strings are byte sequences here, so the bytes of a non-ASCII letter are
    left as they are and break a word, where Python cases the letter: the
    two agree on ASCII input only. *)
Fixpoint title_from (previous_is_cased : bool) (s : string) : string :=
  match s with
  | EmptyString => EmptyString
  | String c s' =>
      if is_lower c then
        String (if previous_is_cased then c else to_upper c) (title_from true s')
      else if is_upper c then
        String (if previous_is_cased then to_lower c else c) (title_from true s')
      else String c (title_from false s')
  end.
Definition title (s : string) : string := title_from false s.

(** Truth value of a [float]: everything but the two zeros. *)
Definition float_truthy (x : float) : bool := negb (PrimFloat.eqb x 0).

(** Truth value of a [float | None]. *)
Definition truthy (o : option float) : bool :=
  match o with
  | Some x => float_truthy x
  | None => false
  end.

(** [round(x, ndigits)] on a float, for [ndigits >= 0]: the exact binary value
    of [x] is rounded half-to-even to [ndigits] decimals and the decimal
    result is converted back to the nearest float.  Infinities and NaN round
    to themselves, and a result of zero keeps the sign of [x]. *)
Definition round (x : float) (ndigits : N) : float :=
  match Prim2SF x with
  | S754_finite s m e =>
      let scale := (10 ^ Z.of_N ndigits)%Z in
      let q := (Z.pos m * scale)%Z in
      let r :=
        if (0 <=? e)%Z then (q * 2 ^ e)%Z
        else
          let d := (2 ^ (- e))%Z in
          let r0 := (q / d)%Z in
          match (2 * (q mod d) ?= d)%Z with
          | Lt => r0
          | Gt => (r0 + 1)%Z
          | Eq => if Z.even r0 then r0 else (r0 + 1)%Z
          end in
      match r with
      | Z.pos p =>
          SF2Prim (SFdiv prec emax (S754_finite s p 0)
                                   (S754_finite false (Z.to_pos scale) 0))
      | _ => if s then (-0)%float else 0%float
      end
  | _ => x
  end.

(** [sum(l)] over floats, added left to right.  The [int] 0 that Python
    starts from (and returns for an empty list) compares and divides as the
    float 0.0, which stands for it here. *)
Definition sum (l : list float) : float := fold_left PrimFloat.add l 0%float.

(** [a / b] on floats. *)
Definition truediv (a b : float) : Result float :=
  if PrimFloat.eqb b 0 then Raise ZeroDivisionError else Ok (a / b)%float.

(** ** homeassistant.const *)

Definition ENERGY_WATT_HOUR : string := "Wh".
Definition PERCENTAGE : string := "%".
Definition PRESSURE_BAR : string := "bar".
Definition TEMP_CELSIUS : string := "°C".

(** [homeassistant.helpers.entity.DeviceInfo]; a key that is not given is
    [None]. *)
Record DeviceInfo := {
  identifiers : gset (string * string);
  di_name : option string;
  manufacturer : option string;
  model : option string;
  sw_version : option string;
}.

(** A dict literal that carries an ["identifiers"] entry only. *)
Definition identifiers_only (ids : gset (string * string)) : DeviceInfo :=
  {| identifiers := ids; di_name := None; manufacturer := None;
     model := None; sw_version := None |}.

(** ** .const and .utils

    [DOMAIN], [get_name_prefix] and [get_unique_id_prefix] are imported from
    sibling modules of the package; the sensor platform is parametric in
    them. *)
Class Utils := {
  DOMAIN : string;
  get_name_prefix : string → string;
  get_unique_id_prefix : string → string;
}.

(** ** myPyllant.models, as far as the sensor platform reads them *)

(** An enum member with its [display_value]. *)
Record PyEnum := { display_value : string }.

Module Home.
Record t := {
    name : string;
    nomenclature : string;
    firmware_version : option string;
    extra_fields : gmap string PyVal;
  }.
End Home.

Module Device.
Record t := {
    name : string;
    device_uuid : string;
    name_display : string;
    brand_name : string;
    product_name_display : string;
    operational_data : gmap string (gmap string PyVal);
  }.
End Device.

Module ZoneHeating.
Record t := { operation_mode_heating : PyEnum }.
End ZoneHeating.

Module Zone.
Record t := {
    index : Z;
    name : string;
    is_active : bool;
    associated_circuit_index : option Z;
    desired_room_temperature_setpoint_heating : option float;
    desired_room_temperature_setpoint_cooling : option float;
    desired_room_temperature_setpoint : option float;
    current_room_temperature : option float;
    current_room_humidity : option float;
    heating : ZoneHeating.t;
    heating_state : PyEnum;
    current_special_function : PyEnum;
  }.
End Zone.

Module Circuit.
Record t := {
    index : Z;
    circuit_state : string;
    current_circuit_flow_temperature : option float;
    heating_curve : option float;
    min_flow_temperature_setpoint : option float;
    extra_fields : gmap string PyVal;
  }.
End Circuit.

Module DomesticHotWater.
Record t := {
    index : Z;
    current_dhw_temperature : option float;
    tapping_setpoint : option float;
    operation_mode_dhw : PyEnum;
    current_special_function : PyEnum;
  }.
End DomesticHotWater.

Module System.
Record t := {
    id : string;
    outdoor_temperature : option float;
    water_pressure : option float;
    brand_name : string;
    home : Home.t;
    devices : list Device.t;
    zones : list Zone.t;
    circuits : list Circuit.t;
    domestic_hot_water : list DomesticHotWater.t;
    extra_fields : gmap string PyVal;
  }.
End System.

Module DeviceDataBucket.
Record t := { value : option float }.
End DeviceDataBucket.

Module DeviceData.
Record t := {
    device : option Device.t;
    energy_type : option string;
    operation_mode : string;
    data : list DeviceDataBucket.t;
  }.
End DeviceData.

(** ** The coordinators (package [__init__])

    Both are instances of the framework's polling coordinator; the platform
    reads their [data] attribute, which is [None] until the first refresh. *)
Module Coordinator.
Record t (D : Type) := {
    data : option D;
    last_update_success : bool;
  }.
  Arguments data {D} _.
  Arguments last_update_success {D} _.
End Coordinator.

(** What the daily-data coordinator caches per system id:
    [{"home_name": ..., "devices_data": [[DeviceData, ...], ...]}]. *)
Module SystemDevices.
Record t := {
    home_name : string;
    devices_data : list (list DeviceData.t);
  }.
End SystemDevices.

Definition SystemCoordinator : Type := Coordinator.t (list System.t).
Definition DailyDataCoordinator : Type := Coordinator.t (dict SystemDevices.t).

(** [coordinator.data[...]]: subscripting [None] is a [TypeError]. *)
Definition subscriptable {D} (coordinator : Coordinator.t D) : Result D :=
  match Coordinator.data coordinator with
  | Some d => Ok d
  | None => Raise TypeError
  end.

(** [not coordinator.data] *)
Definition no_data {A} (d : option (list A)) : bool :=
  match d with
  | None | Some [] => true
  | Some (_ :: _) => false
  end.

(** ** The running Home Assistant instance

    [hass.data[DOMAIN][config.entry_id]] holds the two coordinators of the
    config entry; the module logger is the only thing the platform writes
    to. *)
Inductive LogLevel :=
| DEBUG
| WARNING.

(** The objects passed as arguments to a log call. *)
Inductive LogArg :=
| ArgVal (v : PyVal)
| ArgStr (s : string)
| ArgNat (n : nat)
| ArgSystems (d : option (list System.t))
| ArgDevice (d : Device.t)
| ArgZone (z : Zone.t)
| ArgCircuit (c : Circuit.t)
| ArgDomesticHotWater (w : DomesticHotWater.t)
| ArgDailyData (d : option (dict SystemDevices.t)).

Record LogRecord := {
  levelno : LogLevel;
  msg : string;
  args : list LogArg;
}.

Module HomeAssistant.
Record t := {
  system_coordinator : SystemCoordinator;
  daily_data_coordinator : DailyDataCoordinator;
  log : list LogRecord;
}.
End HomeAssistant.

(** Code that runs inside Home Assistant: it may raise, and it passes the
    instance along. *)
Definition M (A : Type) : Type := HomeAssistant.t → Result A * HomeAssistant.t.

Global Instance M_ret : MRet M := λ A a hass, (Ok a, hass).
Global Instance M_bind : MBind M := λ A B f m hass,
  match m hass with
  | (Ok a, hass') => f a hass'
  | (Raise e, hass') => (Raise e, hass')
  end.

(** Evaluate an expression that may raise. *)
Definition lift {A} (r : Result A) : M A := λ hass, (r, hass).

Definition get_system_coordinator : M SystemCoordinator :=
  λ hass, (Ok (HomeAssistant.system_coordinator hass), hass).

Definition get_daily_data_coordinator : M DailyDataCoordinator :=
  λ hass, (Ok (HomeAssistant.daily_data_coordinator hass), hass).

Definition emit (r : LogRecord) : M unit := λ hass,
  (Ok tt,
   {| HomeAssistant.system_coordinator := HomeAssistant.system_coordinator hass;
      HomeAssistant.daily_data_coordinator :=
        HomeAssistant.daily_data_coordinator hass;
      HomeAssistant.log := HomeAssistant.log hass ++ [r] |}).

Definition _LOGGER_debug (msg : string) (args : list LogArg) : M unit :=
  emit {| levelno := DEBUG; msg := msg; args := args |}.
Definition _LOGGER_warning (msg : string) (args : list LogArg) : M unit :=
  emit {| levelno := WARNING; msg := msg; args := args |}.

(** [for x in l: body], threading the local variables [s] the body assigns. *)
Fixpoint for_each {A S} (l : list A) (body : A → S → M S) (s : S) : M S :=
  match l with
  | [] => mret s
  | x :: l' => s' ← body x s; for_each l' body s'
  end.

(** ** Sensors on the system coordinator

    A sensor stores the indices it was built with and a reference to the
    coordinator; every accessor takes the stored indices and the coordinator
    and returns or raises. *)

Module SystemSensor.
Definition system (index : nat) (coordinator : SystemCoordinator)
    : Result System.t :=
    d ← subscriptable coordinator; list_getitem d index.

Definition device_info `{Utils} (index : nat) (coordinator : SystemCoordinator)
    : Result (option DeviceInfo) :=
    s ← system index coordinator;
    mret (Some (identifiers_only {[ (DOMAIN, "home_" +:+ System.id s) ]})).
End SystemSensor.

Module SystemOutdoorTemperatureSensor.
Definition _attr_native_unit_of_measurement : string := TEMP_CELSIUS.

Definition native_value (index : nat) (coordinator : SystemCoordinator)
    : Result PyVal :=
    s ← SystemSensor.system index coordinator;
    match System.outdoor_temperature s with
    | Some v => mret (PyFloat (round v 1))
    | None => mret PyNone
    end.

Definition unique_id `{Utils} (index : nat) (coordinator : SystemCoordinator)
    : Result PyVal :=
    s ← SystemSensor.system index coordinator;
    mret (PyStr (get_unique_id_prefix (System.id s) +:+ "outdoor_temperature")).

Definition name `{Utils} (index : nat) (coordinator : SystemCoordinator)
    : Result PyVal :=
    s ← SystemSensor.system index coordinator;
    mret (PyStr (get_name_prefix (Home.name (System.home s))
                 +:+ "Outdoor Temperature")).
End SystemOutdoorTemperatureSensor.

Module SystemWaterPressureSensor.
Definition _attr_native_unit_of_measurement : string := PRESSURE_BAR.

Definition native_value (index : nat) (coordinator : SystemCoordinator)
    : Result PyVal :=
    s ← SystemSensor.system index coordinator;
    match System.water_pressure s with
    | Some v => mret (PyFloat (round v 1))
    | None => mret PyNone
    end.

Definition unique_id `{Utils} (index : nat) (coordinator : SystemCoordinator)
    : Result PyVal :=
    s ← SystemSensor.system index coordinator;
    mret (PyStr (get_unique_id_prefix (System.id s) +:+ "water_pressure_"
                 +:+ str_of_nat index)).

Definition name `{Utils} (index : nat) (coordinator : SystemCoordinator)
    : Result PyVal :=
    s ← SystemSensor.system index coordinator;
    mret (PyStr (get_name_prefix (Home.name (System.home s))
                 +:+ "System Water Pressure")).
End SystemWaterPressureSensor.

Module HomeEntity.
Definition system (system_index : nat) (coordinator : SystemCoordinator)
    : Result System.t :=
    d ← subscriptable coordinator; list_getitem d system_index.

  (** [home.extra_fields | system.extra_fields]: the right operand wins. *)
Definition extra_state_attributes (system_index : nat)
      (coordinator : SystemCoordinator) : Result (gmap string PyVal) :=
    s ← system system_index coordinator;
    mret (System.extra_fields s ∪ Home.extra_fields (System.home s)).

Definition device_info `{Utils} (system_index : nat)
      (coordinator : SystemCoordinator) : Result (option DeviceInfo) :=
    s ← system system_index coordinator;
    mret (Some {|
      identifiers := {[ (DOMAIN, "home_" +:+ System.id s) ]};
      di_name := Some (Home.name (System.home s));
      manufacturer := Some (System.brand_name s);
      model := Some (Home.nomenclature (System.home s));
      sw_version := Home.firmware_version (System.home s) |}).

Definition unique_id `{Utils} (system_index : nat)
      (coordinator : SystemCoordinator) : Result PyVal :=
    s ← system system_index coordinator;
    mret (PyStr (get_unique_id_prefix (System.id s) +:+ "home")).

Definition native_value (system_index : nat) (coordinator : SystemCoordinator)
    : Result PyVal :=
    s ← system system_index coordinator;
    mret (of_str (Home.firmware_version (System.home s))).

Definition name `{Utils} (system_index : nat) (coordinator : SystemCoordinator)
    : Result PyVal :=
    s ← system system_index coordinator;
    mret (PyStr (get_name_prefix (Home.name (System.home s))
                 +:+ "Firmware Version")).
End HomeEntity.

Module ZoneEntity.
Definition system (system_index : nat) (coordinator : SystemCoordinator)
    : Result System.t :=
    d ← subscriptable coordinator; list_getitem d system_index.

Definition zone (system_index zone_index : nat)
      (coordinator : SystemCoordinator) : Result Zone.t :=
    s ← system system_index coordinator;
    list_getitem (System.zones s) zone_index.

Definition circuit_name_suffix (system_index zone_index : nat)
      (coordinator : SystemCoordinator) : Result string :=
    z ← zone system_index zone_index coordinator;
    match Zone.associated_circuit_index z with
    | None => mret ""
    | Some i => mret (" of Circuit " +:+ str_of_int i)
    end.

Definition device_info `{Utils} (system_index zone_index : nat)
      (coordinator : SystemCoordinator) : Result (option DeviceInfo) :=
    s ← system system_index coordinator;
    z ← zone system_index zone_index coordinator;
    suffix ← circuit_name_suffix system_index zone_index coordinator;
    mret (Some {|
      identifiers :=
        {[ (DOMAIN, "zone_" +:+ System.id s +:+ "_" +:+ str_of_int (Zone.index z)) ]};
      di_name := Some (get_name_prefix (Home.name (System.home s))
                       +:+ "Zone " +:+ Zone.name z +:+ suffix);
      manufacturer := Some (System.brand_name s);
      model := None;
      sw_version := None |}).

Definition available (system_index zone_index : nat)
      (coordinator : SystemCoordinator) : Result bool :=
    z ← zone system_index zone_index coordinator;
    mret (Zone.is_active z).

  (** The shape shared by the [name] of every zone sensor:
      [f"{get_name_prefix(self.system.home.name)}<label>{self.zone.name}"]. *)
Definition labelled `{Utils} (label : string) (system_index zone_index : nat)
      (coordinator : SystemCoordinator) : Result PyVal :=
    s ← system system_index coordinator;
    z ← zone system_index zone_index coordinator;
    mret (PyStr (get_name_prefix (Home.name (System.home s))
                 +:+ label +:+ Zone.name z)).

  (** The shape shared by every [unique_id]:
      [f"{get_unique_id_prefix(self.system.id)}<key>{self.zone_index}"]. *)
Definition keyed `{Utils} (key : string) (system_index zone_index : nat)
      (coordinator : SystemCoordinator) : Result PyVal :=
    s ← system system_index coordinator;
    mret (PyStr (get_unique_id_prefix (System.id s) +:+ key
                 +:+ str_of_nat zone_index)).
End ZoneEntity.

Module ZoneDesiredRoomTemperatureSetpointSensor.
Definition _attr_native_unit_of_measurement : string := TEMP_CELSIUS.

Definition name `{Utils} := ZoneEntity.labelled "Desired Temperature in ".

Definition native_value (system_index zone_index : nat)
      (coordinator : SystemCoordinator) : Result PyVal :=
    z ← ZoneEntity.zone system_index zone_index coordinator;
    if truthy (Zone.desired_room_temperature_setpoint_heating z) then
      mret (of_float (Zone.desired_room_temperature_setpoint_heating z))
    else if truthy (Zone.desired_room_temperature_setpoint_cooling z) then
      mret (of_float (Zone.desired_room_temperature_setpoint_cooling z))
    else mret (of_float (Zone.desired_room_temperature_setpoint z)).

Definition unique_id `{Utils} := ZoneEntity.keyed "zone_desired_temperature_".
End ZoneDesiredRoomTemperatureSetpointSensor.

Module ZoneCurrentRoomTemperatureSensor.
Definition _attr_native_unit_of_measurement : string := TEMP_CELSIUS.

Definition name `{Utils} := ZoneEntity.labelled "Current Temperature in ".

Definition native_value (system_index zone_index : nat)
      (coordinator : SystemCoordinator) : Result PyVal :=
    z ← ZoneEntity.zone system_index zone_index coordinator;
    match Zone.current_room_temperature z with
    | None => mret PyNone
    | Some v => mret (PyFloat (round v 1))
    end.

Definition unique_id `{Utils} := ZoneEntity.keyed "zone_current_temperature_".
End ZoneCurrentRoomTemperatureSensor.

Module ZoneHumiditySensor.
Definition _attr_native_unit_of_measurement : string := PERCENTAGE.

Definition name `{Utils} := ZoneEntity.labelled "Humidity in ".

Definition native_value (system_index zone_index : nat)
      (coordinator : SystemCoordinator) : Result PyVal :=
    z ← ZoneEntity.zone system_index zone_index coordinator;
    mret (of_float (Zone.current_room_humidity z)).

Definition unique_id `{Utils} := ZoneEntity.keyed "zone_humidity_".
End ZoneHumiditySensor.

Module ZoneHeatingOperatingModeSensor.
Definition name `{Utils} := ZoneEntity.labelled "Heating Operating Mode in ".

Definition native_value (system_index zone_index : nat)
      (coordinator : SystemCoordinator) : Result PyVal :=
    z ← ZoneEntity.zone system_index zone_index coordinator;
    mret (PyStr (display_value
                   (ZoneHeating.operation_mode_heating (Zone.heating z)))).

Definition unique_id `{Utils} :=
    ZoneEntity.keyed "zone_heating_operating_mode_".
End ZoneHeatingOperatingModeSensor.

Module ZoneHeatingStateSensor.
Definition name `{Utils} := ZoneEntity.labelled "Heating State in ".

Definition native_value (system_index zone_index : nat)
      (coordinator : SystemCoordinator) : Result PyVal :=
    z ← ZoneEntity.zone system_index zone_index coordinator;
    mret (PyStr (display_value (Zone.heating_state z))).

Definition unique_id `{Utils} := ZoneEntity.keyed "zone_heating_state_".
End ZoneHeatingStateSensor.

Module ZoneCurrentSpecialFunctionSensor.
Definition name `{Utils} := ZoneEntity.labelled "Current Special Function in ".

Definition native_value (system_index zone_index : nat)
      (coordinator : SystemCoordinator) : Result PyVal :=
    z ← ZoneEntity.zone system_index zone_index coordinator;
    mret (PyStr (display_value (Zone.current_special_function z))).

Definition unique_id `{Utils} :=
    ZoneEntity.keyed "zone_current_special_function_".
End ZoneCurrentSpecialFunctionSensor.

Module CircuitSensor.
Definition system (system_index : nat) (coordinator : SystemCoordinator)
  : Result System.t :=
  d ← subscriptable coordinator; list_getitem d system_index.

Definition circuit (system_index circuit_index : nat)
    (coordinator : SystemCoordinator) : Result Circuit.t :=
  s ← system system_index coordinator;
  list_getitem (System.circuits s) circuit_index.

Definition device_info `{Utils} (system_index circuit_index : nat)
    (coordinator : SystemCoordinator) : Result (option DeviceInfo) :=
  s ← system system_index coordinator;
  c ← circuit system_index circuit_index coordinator;
  mret (Some (identifiers_only
    {[ (DOMAIN, "circuit_" +:+ System.id s +:+ "_"
                +:+ str_of_int (Circuit.index c)) ]})).

(** [f"{get_name_prefix(self.system.home.name)}<label>{self.circuit.index}"] *)
Definition labelled `{Utils} (label : string) (system_index circuit_index : nat)
    (coordinator : SystemCoordinator) : Result PyVal :=
  s ← system system_index coordinator;
  c ← circuit system_index circuit_index coordinator;
  mret (PyStr (get_name_prefix (Home.name (System.home s))
               +:+ label +:+ str_of_int (Circuit.index c))).

(** [f"{get_unique_id_prefix(self.system.id)}<key>{self.circuit_index}"] *)
Definition keyed `{Utils} (key : string) (system_index circuit_index : nat)
    (coordinator : SystemCoordinator) : Result PyVal :=
  s ← system system_index coordinator;
  mret (PyStr (get_unique_id_prefix (System.id s) +:+ key
               +:+ str_of_nat circuit_index)).
End CircuitSensor.

Module CircuitFlowTemperatureSensor.
Definition _attr_native_unit_of_measurement : string := TEMP_CELSIUS.

Definition name `{Utils} :=
  CircuitSensor.labelled "Current Flow Temperature in Circuit ".

Definition native_value (system_index circuit_index : nat)
    (coordinator : SystemCoordinator) : Result PyVal :=
  c ← CircuitSensor.circuit system_index circuit_index coordinator;
  mret (of_float (Circuit.current_circuit_flow_temperature c)).

Definition unique_id `{Utils} := CircuitSensor.keyed "circuit_flow_temperature_".
End CircuitFlowTemperatureSensor.

Module CircuitStateSensor.
Definition name `{Utils} := CircuitSensor.labelled "State in Circuit ".

Definition native_value (system_index circuit_index : nat)
    (coordinator : SystemCoordinator) : Result PyVal :=
  c ← CircuitSensor.circuit system_index circuit_index coordinator;
  mret (PyStr (Circuit.circuit_state c)).

Definition extra_state_attributes (system_index circuit_index : nat)
    (coordinator : SystemCoordinator) : Result (gmap string PyVal) :=
  c ← CircuitSensor.circuit system_index circuit_index coordinator;
  mret (Circuit.extra_fields c).

Definition unique_id `{Utils} := CircuitSensor.keyed "circuit_state_".
End CircuitStateSensor.

Module CircuitMinFlowTemperatureSetpointSensor.
Definition _attr_native_unit_of_measurement : string := TEMP_CELSIUS.

Definition name `{Utils} :=
  CircuitSensor.labelled "Min Flow Temperature Setpoint in Circuit ".

Definition native_value (system_index circuit_index : nat)
    (coordinator : SystemCoordinator) : Result PyVal :=
  c ← CircuitSensor.circuit system_index circuit_index coordinator;
  mret (of_float (Circuit.min_flow_temperature_setpoint c)).

Definition unique_id `{Utils} :=
  CircuitSensor.keyed "circuit_min_flow_temperature_setpoint_".
End CircuitMinFlowTemperatureSetpointSensor.

Module CircuitHeatingCurveSensor.
Definition name `{Utils} := CircuitSensor.labelled "Heating Curve in Circuit ".

Definition native_value (system_index circuit_index : nat)
    (coordinator : SystemCoordinator) : Result PyVal :=
  c ← CircuitSensor.circuit system_index circuit_index coordinator;
  match Circuit.heating_curve c with
  | Some v => mret (PyFloat (round v 2))
  | None => mret PyNone
  end.

Definition unique_id `{Utils} := CircuitSensor.keyed "circuit_heating_curve_".
End CircuitHeatingCurveSensor.

Module DomesticHotWaterSensor.
Definition system (system_index : nat) (coordinator : SystemCoordinator)
  : Result System.t :=
  d ← subscriptable coordinator; list_getitem d system_index.

Definition domestic_hot_water (system_index dhw_index : nat)
    (coordinator : SystemCoordinator) : Result DomesticHotWater.t :=
  s ← system system_index coordinator;
  list_getitem (System.domestic_hot_water s) dhw_index.

Definition device_info `{Utils} (system_index dhw_index : nat)
    (coordinator : SystemCoordinator) : Result (option DeviceInfo) :=
  s ← system system_index coordinator;
  w ← domestic_hot_water system_index dhw_index coordinator;
  mret (Some (identifiers_only
    {[ (DOMAIN, "domestic_hot_water_" +:+ System.id s +:+ "_"
                +:+ str_of_int (DomesticHotWater.index w)) ]})).

(** [f"{get_name_prefix(self.system.home.name)}<label>{self.domestic_hot_water.index}"] *)
Definition labelled `{Utils} (label : string) (system_index dhw_index : nat)
    (coordinator : SystemCoordinator) : Result PyVal :=
  s ← system system_index coordinator;
  w ← domestic_hot_water system_index dhw_index coordinator;
  mret (PyStr (get_name_prefix (Home.name (System.home s))
               +:+ label +:+ str_of_int (DomesticHotWater.index w))).

(** [f"{get_unique_id_prefix(self.system.id)}<key>{self.dhw_index}"] *)
Definition keyed `{Utils} (key : string) (system_index dhw_index : nat)
    (coordinator : SystemCoordinator) : Result PyVal :=
  s ← system system_index coordinator;
  mret (PyStr (get_unique_id_prefix (System.id s) +:+ key
               +:+ str_of_nat dhw_index)).
End DomesticHotWaterSensor.

Module DomesticHotWaterTankTemperatureSensor.
Definition _attr_native_unit_of_measurement : string := TEMP_CELSIUS.

Definition name `{Utils} :=
  DomesticHotWaterSensor.labelled "Tank Temperature Domestic Hot Water ".

Definition native_value (system_index dhw_index : nat)
    (coordinator : SystemCoordinator) : Result PyVal :=
  w ← DomesticHotWaterSensor.domestic_hot_water system_index dhw_index coordinator;
  mret (of_float (DomesticHotWater.current_dhw_temperature w)).

Definition unique_id `{Utils} :=
  DomesticHotWaterSensor.keyed "dhw_tank_temperature_".
End DomesticHotWaterTankTemperatureSensor.

Module DomesticHotWaterSetPointSensor.
Definition _attr_native_unit_of_measurement : string := TEMP_CELSIUS.

Definition name `{Utils} :=
  DomesticHotWaterSensor.labelled "Setpoint Domestic Hot Water ".

Definition native_value (system_index dhw_index : nat)
    (coordinator : SystemCoordinator) : Result PyVal :=
  w ← DomesticHotWaterSensor.domestic_hot_water system_index dhw_index coordinator;
  mret (of_float (DomesticHotWater.tapping_setpoint w)).

Definition unique_id `{Utils} := DomesticHotWaterSensor.keyed "dhw_set_point_".
End DomesticHotWaterSetPointSensor.

Module DomesticHotWaterOperationModeSensor.
Definition name `{Utils} :=
  DomesticHotWaterSensor.labelled "Operation Mode Domestic Hot Water ".

Definition native_value (system_index dhw_index : nat)
    (coordinator : SystemCoordinator) : Result PyVal :=
  w ← DomesticHotWaterSensor.domestic_hot_water system_index dhw_index coordinator;
  mret (PyStr (display_value (DomesticHotWater.operation_mode_dhw w))).

Definition unique_id `{Utils} :=
  DomesticHotWaterSensor.keyed "dhw_operation_mode_".
End DomesticHotWaterOperationModeSensor.

Module DomesticHotWaterCurrentSpecialFunctionSensor.
Definition name `{Utils} :=
  DomesticHotWaterSensor.labelled "Current Special Function Domestic Hot Water ".

Definition native_value (system_index dhw_index : nat)
    (coordinator : SystemCoordinator) : Result PyVal :=
  w ← DomesticHotWaterSensor.domestic_hot_water system_index dhw_index coordinator;
  mret (PyStr (display_value (DomesticHotWater.current_special_function w))).

Definition unique_id `{Utils} :=
  DomesticHotWaterSensor.keyed "dhw_current_special_function_".
End DomesticHotWaterCurrentSpecialFunctionSensor.

Module SystemDeviceSensor.
Definition system (system_index : nat) (coordinator : SystemCoordinator)
  : Result System.t :=
  d ← subscriptable coordinator; list_getitem d system_index.

Definition device (system_index device_index : nat)
    (coordinator : SystemCoordinator) : Result Device.t :=
  s ← system system_index coordinator;
  list_getitem (System.devices s) device_index.

Definition device_info `{Utils} (system_index device_index : nat)
    (coordinator : SystemCoordinator) : Result (option DeviceInfo) :=
  s ← system system_index coordinator;
  mret (Some (identifiers_only {[ (DOMAIN, "system_" +:+ System.id s) ]})).
End SystemDeviceSensor.

Module SystemDeviceWaterPressureSensor.
Definition _attr_native_unit_of_measurement : string := PRESSURE_BAR.

Definition name `{Utils} (system_index device_index : nat)
    (coordinator : SystemCoordinator) : Result PyVal :=
  s ← SystemDeviceSensor.system system_index coordinator;
  d ← SystemDeviceSensor.device system_index device_index coordinator;
  mret (PyStr (get_name_prefix (Home.name (System.home s))
               +:+ "Water Pressure " +:+ Device.name d)).

(** [operational_data.get("water_pressure", {}).get("value")] *)
Definition native_value (system_index device_index : nat)
    (coordinator : SystemCoordinator) : Result PyVal :=
  d ← SystemDeviceSensor.device system_index device_index coordinator;
  mret (default PyNone
          (default ∅ (Device.operational_data d !! "water_pressure") !! "value")).

Definition unique_id `{Utils} (system_index device_index : nat)
    (coordinator : SystemCoordinator) : Result PyVal :=
  s ← SystemDeviceSensor.system system_index coordinator;
  d ← SystemDeviceSensor.device system_index device_index coordinator;
  mret (PyStr (get_unique_id_prefix (System.id s) +:+ "water_pressure_"
               +:+ Device.device_uuid d)).
End SystemDeviceWaterPressureSensor.

(** ** Sensors on the daily-data coordinator *)

Definition DATA_UNIT_MAP : dict string := [
  ("CONSUMED_ELECTRICAL_ENERGY", ENERGY_WATT_HOUR);
  ("EARNED_ENVIRONMENT_ENERGY", ENERGY_WATT_HOUR);
  ("HEAT_GENERATED", ENERGY_WATT_HOUR);
  ("CONSUMED_PRIMARY_ENERGY", ENERGY_WATT_HOUR);
  ("EARNED_SOLAR_ENERGY", ENERGY_WATT_HOUR)
].

(** [key in DATA_UNIT_MAP] for a [str | None] key. *)
Definition in_DATA_UNIT_MAP (key : option string) : bool :=
  match key with
  | Some k => dict_contains DATA_UNIT_MAP k
  | None => false
  end.

Module DataSensor.
(** The attributes [__init__] stores on the object. *)
Record t := {
  system_id : string;
  de_index : nat;
  da_index : nat;
  _attr_native_unit_of_measurement : option string;
}.

Definition device_data (system_id : string) (de_index da_index : nat)
    (coordinator : DailyDataCoordinator) : Result (option DeviceData.t) :=
  d ← subscriptable coordinator;
  sd ← dict_getitem d system_id;
  if bool_decide (length (SystemDevices.devices_data sd) ≤ de_index)%nat then
    mret None
  else
    row ← list_getitem (SystemDevices.devices_data sd) de_index;
    if bool_decide (length row ≤ da_index)%nat then mret None
    else x ← list_getitem row da_index; mret (Some x).

Definition home_name (system_id : string) (coordinator : DailyDataCoordinator)
  : Result string :=
  d ← subscriptable coordinator;
  sd ← dict_getitem d system_id;
  mret (SystemDevices.home_name sd).

Definition device (system_id : string) (de_index da_index : nat)
    (coordinator : DailyDataCoordinator) : Result (option Device.t) :=
  dd ← device_data system_id de_index da_index coordinator;
  match dd with
  | None => mret None
  | Some dd => mret (DeviceData.device dd)
  end.

Definition data_bucket (system_id : string) (de_index da_index : nat)
    (coordinator : DailyDataCoordinator) : Result (option DeviceDataBucket.t) :=
  dd ← device_data system_id de_index da_index coordinator;
  match dd with
  | None => mret None
  | Some dd =>
      let data :=
        filter (λ d, DeviceDataBucket.value d ≠ None) (DeviceData.data dd) in
      if bool_decide (0 < length data)%nat then b ← list_last data; mret (Some b)
      else mret None
  end.

Definition name `{Utils} (system_id : string) (de_index da_index : nat)
    (coordinator : DailyDataCoordinator) : Result PyVal :=
  dev ← device system_id de_index da_index coordinator;
  match dev with
  | None => mret PyNone
  | Some dev =>
      dd ← device_data system_id de_index da_index coordinator;
      match dd with
      | None => mret PyNone
      | Some dd =>
          let name := Device.name_display dev in
          let om := title (replace "_" " " (DeviceData.operation_mode dd)) in
          let et :=
            match DeviceData.energy_type dd with
            | Some e => title (replace "_" " " e) +:+ " "
            | None => ""
            end in
          hn ← home_name system_id coordinator;
          mret (PyStr (get_name_prefix hn +:+ str_of_nat de_index +:+ " "
                       +:+ name +:+ " " +:+ et +:+ om))
      end
  end.

Definition unique_id `{Utils} (system_id : string) (de_index da_index : nat)
    (coordinator : DailyDataCoordinator) : Result PyVal :=
  dev ← device system_id de_index da_index coordinator;
  match dev with
  | None => mret PyNone
  | Some dev =>
      mret (PyStr (get_unique_id_prefix system_id +:+ Device.device_uuid dev
                   +:+ "_" +:+ str_of_nat da_index))
  end.

Definition device_info `{Utils} (system_id : string) (de_index da_index : nat)
    (coordinator : DailyDataCoordinator) : Result (option DeviceInfo) :=
  dev ← device system_id de_index da_index coordinator;
  match dev with
  | None => mret None
  | Some dev =>
      hn ← home_name system_id coordinator;
      mret (Some {|
        identifiers :=
          {[ (DOMAIN, "device_" +:+ system_id +:+ "_" +:+ Device.device_uuid dev) ]};
        di_name := Some (get_name_prefix hn +:+ str_of_nat de_index +:+ " "
                         +:+ Device.name_display dev);
        manufacturer := Some (Device.brand_name dev);
        model := Some (Device.product_name_display dev);
        sw_version := None |})
  end.

Definition native_value (system_id : string) (de_index da_index : nat)
    (coordinator : DailyDataCoordinator) : Result PyVal :=
  b ← data_bucket system_id de_index da_index coordinator;
  match b with
  | Some b => mret (of_float (DeviceDataBucket.value b))
  | None => mret PyNone
  end.

(** [DATA_UNIT_MAP[key]] *)
Definition DATA_UNIT_MAP_getitem (key : option string) : Result string :=
  match key with
  | Some k => dict_getitem DATA_UNIT_MAP k
  | None => Raise KeyError
  end.

(** The constructor: it stores the indices, selects the unit from the device
    data it finds at that moment and logs the three derived properties, whose
    evaluation happens before the log call. *)
Definition __init__ `{Utils} (system_id : string) (de_index da_index : nat)
  : M t :=
  coordinator ← get_daily_data_coordinator;
  dd ← lift (device_data system_id de_index da_index coordinator);
  unit ←
    match dd with
    | Some dd =>
        if in_DATA_UNIT_MAP (DeviceData.energy_type dd) then
          u ← lift (DATA_UNIT_MAP_getitem (DeviceData.energy_type dd));
          mret (Some u)
        else mret None
    | None => mret None
    end;
  n ← lift (name system_id de_index da_index coordinator);
  v ← lift (native_value system_id de_index da_index coordinator);
  u ← lift (unique_id system_id de_index da_index coordinator);
  _LOGGER_debug "Finishing init of %s = %s and unique id %s"
                [ArgVal n; ArgVal v; ArgVal u];;
  mret {| system_id := system_id; de_index := de_index; da_index := da_index;
          _attr_native_unit_of_measurement := unit |}.
End DataSensor.

Module EfficiencySensor.
Definition device_data_list (system_id : string) (de_index : option nat)
    (coordinator : DailyDataCoordinator) : Result (list DeviceData.t) :=
  d ← subscriptable coordinator;
  sd ← dict_getitem d system_id;
  match de_index with
  | None => mret (concat (SystemDevices.devices_data sd))
  | Some i => list_getitem (SystemDevices.devices_data sd) i
  end.

Definition home_name (system_id : string) (coordinator : DailyDataCoordinator)
  : Result string :=
  d ← subscriptable coordinator;
  sd ← dict_getitem d system_id;
  mret (SystemDevices.home_name sd).

(** One step of the comprehension
    [[v.data[-1].value for v in ... if len(v.data) and v.data[-1].value
      and v.energy_type == energy]]: the value [v] contributes, if any. *)
Definition counted (energy : string) (v : DeviceData.t) : option float :=
  match last (DeviceData.data v) with
  | None => None
  | Some b =>
      if truthy (DeviceDataBucket.value b)
         && bool_decide (DeviceData.energy_type v = Some energy)
      then DeviceDataBucket.value b
      else None
  end.

Definition energy_consumed (system_id : string) (de_index : option nat)
    (coordinator : DailyDataCoordinator) : Result float :=
  l ← device_data_list system_id de_index coordinator;
  mret (sum (omap (counted "CONSUMED_ELECTRICAL_ENERGY") l)).

Definition heat_energy_generated (system_id : string) (de_index : option nat)
    (coordinator : DailyDataCoordinator) : Result float :=
  l ← device_data_list system_id de_index coordinator;
  mret (sum (omap (counted "HEAT_GENERATED") l)).

(** The device that names a per-device sensor:
    [len(self.device_data_list) > 0 and self.de_index is not None
     and self.device_data_list[0].device is not None]. *)
Definition first_device (de_index : option nat) (l : list DeviceData.t)
  : option (nat * Device.t) :=
  match l, de_index with
  | v :: _, Some i => pair i <$> DeviceData.device v
  | _, _ => None
  end.

Definition unique_id `{Utils} (system_id : string) (de_index : option nat)
    (coordinator : DailyDataCoordinator) : Result PyVal :=
  l ← device_data_list system_id de_index coordinator;
  match first_device de_index l with
  | Some (_, dev) =>
      mret (PyStr (get_unique_id_prefix system_id +:+ Device.device_uuid dev
                   +:+ "_heating_energy_efficiency"))
  | None =>
      mret (PyStr (get_unique_id_prefix system_id +:+ "heating_energy_efficiency"))
  end.

Definition device_info `{Utils} (system_id : string) (de_index : option nat)
    (coordinator : DailyDataCoordinator) : Result (option DeviceInfo) :=
  l ← device_data_list system_id de_index coordinator;
  if bool_decide (length l = 0%nat) then mret None
  else
    match first_device de_index l with
    | Some (_, dev) =>
        mret (Some (identifiers_only
          {[ (DOMAIN, "device_" +:+ system_id +:+ "_" +:+ Device.device_uuid dev) ]}))
    | None =>
        match de_index with
        | None => mret (Some (identifiers_only {[ (DOMAIN, "home_" +:+ system_id) ]}))
        | Some _ => mret None
        end
    end.

Definition native_value (system_id : string) (de_index : option nat)
    (coordinator : DailyDataCoordinator) : Result PyVal :=
  consumed ← energy_consumed system_id de_index coordinator;
  if (0 <? consumed)%float then
    generated ← heat_energy_generated system_id de_index coordinator;
    consumed ← energy_consumed system_id de_index coordinator;
    quotient ← truediv generated consumed;
    mret (PyFloat (round quotient 1))
  else mret PyNone.

Definition name `{Utils} (system_id : string) (de_index : option nat)
    (coordinator : DailyDataCoordinator) : Result PyVal :=
  l ← device_data_list system_id de_index coordinator;
  match first_device de_index l with
  | Some (i, dev) =>
      hn ← home_name system_id coordinator;
      mret (PyStr (get_name_prefix hn +:+ str_of_nat i +:+ " "
                   +:+ Device.name_display dev +:+ " Heating Energy Efficiency"))
  | None =>
      hn ← home_name system_id coordinator;
      mret (PyStr (get_name_prefix hn +:+ "Heating Energy Efficiency"))
  end.
End EfficiencySensor.

(** ** The sensor objects and the dispatch of their properties *)

(** An instance of one of the classes bound to the system coordinator, with
    the indices its constructor stored. *)
Inductive SystemEntity :=
| SystemOutdoorTemperatureSensor (index : nat)
| SystemWaterPressureSensor (index : nat)
| HomeEntity (system_index : nat)
| SystemDeviceWaterPressureSensor (system_index device_index : nat)
| ZoneDesiredRoomTemperatureSetpointSensor (system_index zone_index : nat)
| ZoneCurrentRoomTemperatureSensor (system_index zone_index : nat)
| ZoneHumiditySensor (system_index zone_index : nat)
| ZoneHeatingOperatingModeSensor (system_index zone_index : nat)
| ZoneHeatingStateSensor (system_index zone_index : nat)
| ZoneCurrentSpecialFunctionSensor (system_index zone_index : nat)
| CircuitStateSensor (system_index circuit_index : nat)
| CircuitFlowTemperatureSensor (system_index circuit_index : nat)
| CircuitHeatingCurveSensor (system_index circuit_index : nat)
| CircuitMinFlowTemperatureSetpointSensor (system_index circuit_index : nat)
| DomesticHotWaterTankTemperatureSensor (system_index dhw_index : nat)
| DomesticHotWaterSetPointSensor (system_index dhw_index : nat)
| DomesticHotWaterOperationModeSensor (system_index dhw_index : nat)
| DomesticHotWaterCurrentSpecialFunctionSensor (system_index dhw_index : nat).

Global Instance SystemEntity_eq_dec : EqDecision SystemEntity.
Proof. solve_decision. Defined.

(** An instance of one of the two classes bound to the daily-data
    coordinator. *)
Inductive DailyEntity :=
| DataSensor (self : DataSensor.t)
| EfficiencySensor (system_id : string) (de_index : option nat).

Global Instance DataSensor_eq_dec : EqDecision DataSensor.t.
Proof. solve_decision. Defined.
Global Instance DailyEntity_eq_dec : EqDecision DailyEntity.
Proof. solve_decision. Defined.

Module SystemEntity.
Definition name `{Utils} (self : SystemEntity) : SystemCoordinator → Result PyVal :=
  match self with
  | SystemOutdoorTemperatureSensor i => SystemOutdoorTemperatureSensor.name i
  | SystemWaterPressureSensor i => SystemWaterPressureSensor.name i
  | HomeEntity i => HomeEntity.name i
  | SystemDeviceWaterPressureSensor i j => SystemDeviceWaterPressureSensor.name i j
  | ZoneDesiredRoomTemperatureSetpointSensor i j =>
      ZoneDesiredRoomTemperatureSetpointSensor.name i j
  | ZoneCurrentRoomTemperatureSensor i j => ZoneCurrentRoomTemperatureSensor.name i j
  | ZoneHumiditySensor i j => ZoneHumiditySensor.name i j
  | ZoneHeatingOperatingModeSensor i j => ZoneHeatingOperatingModeSensor.name i j
  | ZoneHeatingStateSensor i j => ZoneHeatingStateSensor.name i j
  | ZoneCurrentSpecialFunctionSensor i j => ZoneCurrentSpecialFunctionSensor.name i j
  | CircuitStateSensor i j => CircuitStateSensor.name i j
  | CircuitFlowTemperatureSensor i j => CircuitFlowTemperatureSensor.name i j
  | CircuitHeatingCurveSensor i j => CircuitHeatingCurveSensor.name i j
  | CircuitMinFlowTemperatureSetpointSensor i j =>
      CircuitMinFlowTemperatureSetpointSensor.name i j
  | DomesticHotWaterTankTemperatureSensor i j =>
      DomesticHotWaterTankTemperatureSensor.name i j
  | DomesticHotWaterSetPointSensor i j => DomesticHotWaterSetPointSensor.name i j
  | DomesticHotWaterOperationModeSensor i j =>
      DomesticHotWaterOperationModeSensor.name i j
  | DomesticHotWaterCurrentSpecialFunctionSensor i j =>
      DomesticHotWaterCurrentSpecialFunctionSensor.name i j
  end.

Definition unique_id `{Utils} (self : SystemEntity)
  : SystemCoordinator → Result PyVal :=
  match self with
  | SystemOutdoorTemperatureSensor i => SystemOutdoorTemperatureSensor.unique_id i
  | SystemWaterPressureSensor i => SystemWaterPressureSensor.unique_id i
  | HomeEntity i => HomeEntity.unique_id i
  | SystemDeviceWaterPressureSensor i j =>
      SystemDeviceWaterPressureSensor.unique_id i j
  | ZoneDesiredRoomTemperatureSetpointSensor i j =>
      ZoneDesiredRoomTemperatureSetpointSensor.unique_id i j
  | ZoneCurrentRoomTemperatureSensor i j =>
      ZoneCurrentRoomTemperatureSensor.unique_id i j
  | ZoneHumiditySensor i j => ZoneHumiditySensor.unique_id i j
  | ZoneHeatingOperatingModeSensor i j => ZoneHeatingOperatingModeSensor.unique_id i j
  | ZoneHeatingStateSensor i j => ZoneHeatingStateSensor.unique_id i j
  | ZoneCurrentSpecialFunctionSensor i j =>
      ZoneCurrentSpecialFunctionSensor.unique_id i j
  | CircuitStateSensor i j => CircuitStateSensor.unique_id i j
  | CircuitFlowTemperatureSensor i j => CircuitFlowTemperatureSensor.unique_id i j
  | CircuitHeatingCurveSensor i j => CircuitHeatingCurveSensor.unique_id i j
  | CircuitMinFlowTemperatureSetpointSensor i j =>
      CircuitMinFlowTemperatureSetpointSensor.unique_id i j
  | DomesticHotWaterTankTemperatureSensor i j =>
      DomesticHotWaterTankTemperatureSensor.unique_id i j
  | DomesticHotWaterSetPointSensor i j => DomesticHotWaterSetPointSensor.unique_id i j
  | DomesticHotWaterOperationModeSensor i j =>
      DomesticHotWaterOperationModeSensor.unique_id i j
  | DomesticHotWaterCurrentSpecialFunctionSensor i j =>
      DomesticHotWaterCurrentSpecialFunctionSensor.unique_id i j
  end.

Definition native_value (self : SystemEntity) : SystemCoordinator → Result PyVal :=
  match self with
  | SystemOutdoorTemperatureSensor i => SystemOutdoorTemperatureSensor.native_value i
  | SystemWaterPressureSensor i => SystemWaterPressureSensor.native_value i
  | HomeEntity i => HomeEntity.native_value i
  | SystemDeviceWaterPressureSensor i j =>
      SystemDeviceWaterPressureSensor.native_value i j
  | ZoneDesiredRoomTemperatureSetpointSensor i j =>
      ZoneDesiredRoomTemperatureSetpointSensor.native_value i j
  | ZoneCurrentRoomTemperatureSensor i j =>
      ZoneCurrentRoomTemperatureSensor.native_value i j
  | ZoneHumiditySensor i j => ZoneHumiditySensor.native_value i j
  | ZoneHeatingOperatingModeSensor i j =>
      ZoneHeatingOperatingModeSensor.native_value i j
  | ZoneHeatingStateSensor i j => ZoneHeatingStateSensor.native_value i j
  | ZoneCurrentSpecialFunctionSensor i j =>
      ZoneCurrentSpecialFunctionSensor.native_value i j
  | CircuitStateSensor i j => CircuitStateSensor.native_value i j
  | CircuitFlowTemperatureSensor i j => CircuitFlowTemperatureSensor.native_value i j
  | CircuitHeatingCurveSensor i j => CircuitHeatingCurveSensor.native_value i j
  | CircuitMinFlowTemperatureSetpointSensor i j =>
      CircuitMinFlowTemperatureSetpointSensor.native_value i j
  | DomesticHotWaterTankTemperatureSensor i j =>
      DomesticHotWaterTankTemperatureSensor.native_value i j
  | DomesticHotWaterSetPointSensor i j =>
      DomesticHotWaterSetPointSensor.native_value i j
  | DomesticHotWaterOperationModeSensor i j =>
      DomesticHotWaterOperationModeSensor.native_value i j
  | DomesticHotWaterCurrentSpecialFunctionSensor i j =>
      DomesticHotWaterCurrentSpecialFunctionSensor.native_value i j
  end.

(** Subclasses inherit [device_info] from their base class. *)
Definition device_info `{Utils} (self : SystemEntity)
  : SystemCoordinator → Result (option DeviceInfo) :=
  match self with
  | SystemOutdoorTemperatureSensor i
  | SystemWaterPressureSensor i => SystemSensor.device_info i
  | HomeEntity i => HomeEntity.device_info i
  | SystemDeviceWaterPressureSensor i j => SystemDeviceSensor.device_info i j
  | ZoneDesiredRoomTemperatureSetpointSensor i j
  | ZoneCurrentRoomTemperatureSensor i j
  | ZoneHumiditySensor i j
  | ZoneHeatingOperatingModeSensor i j
  | ZoneHeatingStateSensor i j
  | ZoneCurrentSpecialFunctionSensor i j => ZoneEntity.device_info i j
  | CircuitStateSensor i j
  | CircuitFlowTemperatureSensor i j
  | CircuitHeatingCurveSensor i j
  | CircuitMinFlowTemperatureSetpointSensor i j => CircuitSensor.device_info i j
  | DomesticHotWaterTankTemperatureSensor i j
  | DomesticHotWaterSetPointSensor i j
  | DomesticHotWaterOperationModeSensor i j
  | DomesticHotWaterCurrentSpecialFunctionSensor i j =>
      DomesticHotWaterSensor.device_info i j
  end.

(** Two classes override [extra_state_attributes]; the others keep the
    framework's default, [None]. *)
Definition extra_state_attributes (self : SystemEntity)
    (coordinator : SystemCoordinator) : Result (option (gmap string PyVal)) :=
  match self with
  | HomeEntity i =>
      a ← HomeEntity.extra_state_attributes i coordinator; mret (Some a)
  | CircuitStateSensor i j =>
      a ← CircuitStateSensor.extra_state_attributes i j coordinator; mret (Some a)
  | _ => mret None
  end.
End SystemEntity.

Module DailyEntity.
Definition name `{Utils} (self : DailyEntity)
  : DailyDataCoordinator → Result PyVal :=
  match self with
  | DataSensor s =>
      DataSensor.name (DataSensor.system_id s) (DataSensor.de_index s)
                      (DataSensor.da_index s)
  | EfficiencySensor system_id de_index => EfficiencySensor.name system_id de_index
  end.

Definition unique_id `{Utils} (self : DailyEntity)
  : DailyDataCoordinator → Result PyVal :=
  match self with
  | DataSensor s =>
      DataSensor.unique_id (DataSensor.system_id s) (DataSensor.de_index s)
                           (DataSensor.da_index s)
  | EfficiencySensor system_id de_index =>
      EfficiencySensor.unique_id system_id de_index
  end.

Definition native_value (self : DailyEntity)
  : DailyDataCoordinator → Result PyVal :=
  match self with
  | DataSensor s =>
      DataSensor.native_value (DataSensor.system_id s) (DataSensor.de_index s)
                              (DataSensor.da_index s)
  | EfficiencySensor system_id de_index =>
      EfficiencySensor.native_value system_id de_index
  end.

Definition device_info `{Utils} (self : DailyEntity)
  : DailyDataCoordinator → Result (option DeviceInfo) :=
  match self with
  | DataSensor s =>
      DataSensor.device_info (DataSensor.system_id s) (DataSensor.de_index s)
                             (DataSensor.da_index s)
  | EfficiencySensor system_id de_index =>
      EfficiencySensor.device_info system_id de_index
  end.
End DailyEntity.

(** ** The factories *)

Definition append {A} (sensors : list A) (x : A) : list A := sensors ++ [x].

Definition create_system_sensors : M (list SystemEntity) :=
  system_coordinator ← get_system_coordinator;
  if no_data (Coordinator.data system_coordinator) then
    _LOGGER_warning "No system data, skipping sensors" [];;
    mret []
  else
    let sensors := [] in
    _LOGGER_debug "Creating system sensors for %s"
                  [ArgSystems (Coordinator.data system_coordinator)];;
    for_each (enumerate (default [] (Coordinator.data system_coordinator)))
      (λ '(index, system) sensors,
        let sensors :=
          if bool_decide (System.outdoor_temperature system ≠ None)
          then append sensors (SystemOutdoorTemperatureSensor index)
          else sensors in
        let sensors :=
          if bool_decide (System.water_pressure system ≠ None)
          then append sensors (SystemWaterPressureSensor index)
          else sensors in
        let sensors := append sensors (HomeEntity index) in
        sensors ← for_each (enumerate (System.devices system))
          (λ '(device_index, device) sensors,
            _LOGGER_debug "Creating SystemDevice sensors for %s" [ArgDevice device];;
            if bool_decide
                 (is_Some (Device.operational_data device !! "water_pressure"))
            then mret (append sensors
                         (SystemDeviceWaterPressureSensor index device_index))
            else mret sensors)
          sensors;
        sensors ← for_each (enumerate (System.zones system))
          (λ '(zone_index, zone) sensors,
            _LOGGER_debug "Creating Zone sensors for %s" [ArgZone zone];;
            let sensors :=
              append sensors
                (ZoneDesiredRoomTemperatureSetpointSensor index zone_index) in
            let sensors :=
              if bool_decide (Zone.current_room_temperature zone ≠ None)
              then append sensors (ZoneCurrentRoomTemperatureSensor index zone_index)
              else sensors in
            let sensors :=
              if bool_decide (Zone.current_room_humidity zone ≠ None)
              then append sensors (ZoneHumiditySensor index zone_index)
              else sensors in
            let sensors :=
              append sensors (ZoneHeatingOperatingModeSensor index zone_index) in
            let sensors :=
              append sensors (ZoneHeatingStateSensor index zone_index) in
            mret (append sensors
                    (ZoneCurrentSpecialFunctionSensor index zone_index)))
          sensors;
        sensors ← for_each (enumerate (System.circuits system))
          (λ '(circuit_index, circuit) sensors,
            _LOGGER_debug "Creating Circuit sensors for %s" [ArgCircuit circuit];;
            let sensors :=
              append sensors (CircuitStateSensor index circuit_index) in
            let sensors :=
              if bool_decide (Circuit.current_circuit_flow_temperature circuit ≠ None)
              then append sensors (CircuitFlowTemperatureSensor index circuit_index)
              else sensors in
            let sensors :=
              if bool_decide (Circuit.heating_curve circuit ≠ None)
              then append sensors (CircuitHeatingCurveSensor index circuit_index)
              else sensors in
            if bool_decide (Circuit.min_flow_temperature_setpoint circuit ≠ None)
            then mret (append sensors
                         (CircuitMinFlowTemperatureSetpointSensor index circuit_index))
            else mret sensors)
          sensors;
        for_each (enumerate (System.domestic_hot_water system))
          (λ '(dhw_index, dhw) sensors,
            _LOGGER_debug "Creating Domestic Hot Water sensors for %s"
                          [ArgDomesticHotWater dhw];;
            let sensors :=
              if truthy (DomesticHotWater.current_dhw_temperature dhw)
              then append sensors
                     (DomesticHotWaterTankTemperatureSensor index dhw_index)
              else sensors in
            let sensors :=
              append sensors (DomesticHotWaterSetPointSensor index dhw_index) in
            let sensors :=
              append sensors (DomesticHotWaterOperationModeSensor index dhw_index) in
            mret (append sensors
                    (DomesticHotWaterCurrentSpecialFunctionSensor index dhw_index)))
          sensors)
      sensors.

Definition create_daily_data_sensors `{Utils} : M (list DailyEntity) :=
  daily_data_coordinator ← get_daily_data_coordinator;
  _LOGGER_debug "Daily data: %s"
                [ArgDailyData (Coordinator.data daily_data_coordinator)];;
  if no_data (Coordinator.data daily_data_coordinator) then
    _LOGGER_warning "No daily data, skipping sensors" [];;
    mret []
  else
    let sensors := [] in
    for_each (default [] (Coordinator.data daily_data_coordinator))
      (λ '(system_id, system_devices) sensors,
        _LOGGER_debug "Creating efficiency sensor for System %s" [ArgStr system_id];;
        let sensors := append sensors (EfficiencySensor system_id None) in
        for_each (enumerate (SystemDevices.devices_data system_devices))
          (λ '(de_index, devices_data) sensors,
            if bool_decide (length devices_data = 0%nat) then mret sensors
            else
              _LOGGER_debug
                "Creating efficiency sensor for System %s and Device %i"
                [ArgStr system_id; ArgNat de_index];;
              let sensors :=
                append sensors (EfficiencySensor system_id (Some de_index)) in
              coordinator ← get_daily_data_coordinator;
              row ← lift (d ← subscriptable coordinator;
                          sd ← dict_getitem d system_id;
                          list_getitem (SystemDevices.devices_data sd) de_index);
              for_each (enumerate row)
                (λ '(da_index, _) sensors,
                  self ← DataSensor.__init__ system_id de_index da_index;
                  mret (append sensors (DataSensor self)))
                sensors)
          sensors)
      sensors.

(** What [async_setup_entry] hands to [async_add_entities], in order. *)
Definition async_setup_entry `{Utils}
  : M (list SystemEntity * list DailyEntity) :=
  system_sensors ← create_system_sensors;
  daily_sensors ← create_daily_data_sensors;
  mret (system_sensors, daily_sensors).

(** ** The factories' results as list expressions

    The same traversals written without the accumulator and the logger: the
    sensors each object contributes, concatenated in iteration order. *)

Definition system_level_sensors (index : nat) (system : System.t)
  : list SystemEntity :=
  (if bool_decide (System.outdoor_temperature system ≠ None)
   then [SystemOutdoorTemperatureSensor index] else [])
  ++ (if bool_decide (System.water_pressure system ≠ None)
      then [SystemWaterPressureSensor index] else [])
  ++ [HomeEntity index].

Definition device_sensors (index : nat) (p : nat * Device.t)
  : list SystemEntity :=
  if bool_decide (is_Some (Device.operational_data p.2 !! "water_pressure"))
  then [SystemDeviceWaterPressureSensor index p.1] else [].

Definition zone_sensors (index : nat) (p : nat * Zone.t) : list SystemEntity :=
  [ZoneDesiredRoomTemperatureSetpointSensor index p.1]
  ++ (if bool_decide (Zone.current_room_temperature p.2 ≠ None)
      then [ZoneCurrentRoomTemperatureSensor index p.1] else [])
  ++ (if bool_decide (Zone.current_room_humidity p.2 ≠ None)
      then [ZoneHumiditySensor index p.1] else [])
  ++ [ZoneHeatingOperatingModeSensor index p.1;
      ZoneHeatingStateSensor index p.1;
      ZoneCurrentSpecialFunctionSensor index p.1].

Definition circuit_sensors (index : nat) (p : nat * Circuit.t)
  : list SystemEntity :=
  [CircuitStateSensor index p.1]
  ++ (if bool_decide (Circuit.current_circuit_flow_temperature p.2 ≠ None)
      then [CircuitFlowTemperatureSensor index p.1] else [])
  ++ (if bool_decide (Circuit.heating_curve p.2 ≠ None)
      then [CircuitHeatingCurveSensor index p.1] else [])
  ++ (if bool_decide (Circuit.min_flow_temperature_setpoint p.2 ≠ None)
      then [CircuitMinFlowTemperatureSetpointSensor index p.1] else []).

Definition dhw_sensors (index : nat) (p : nat * DomesticHotWater.t)
  : list SystemEntity :=
  (if truthy (DomesticHotWater.current_dhw_temperature p.2)
   then [DomesticHotWaterTankTemperatureSensor index p.1] else [])
  ++ [DomesticHotWaterSetPointSensor index p.1;
      DomesticHotWaterOperationModeSensor index p.1;
      DomesticHotWaterCurrentSpecialFunctionSensor index p.1].

Definition sensors_of_system (p : nat * System.t) : list SystemEntity :=
  system_level_sensors p.1 p.2
  ++ (enumerate (System.devices p.2) ≫= device_sensors p.1)
  ++ (enumerate (System.zones p.2) ≫= zone_sensors p.1)
  ++ (enumerate (System.circuits p.2) ≫= circuit_sensors p.1)
  ++ (enumerate (System.domestic_hot_water p.2) ≫= dhw_sensors p.1).

Definition system_sensors (coordinator : SystemCoordinator)
  : list SystemEntity :=
  enumerate (default [] (Coordinator.data coordinator)) ≫= sensors_of_system.

(** The unit a [DataSensor] built against [coordinator] carries. *)
Definition unit_at (coordinator : DailyDataCoordinator)
    (system_id : string) (de_index da_index : nat) : option string :=
  match DataSensor.device_data system_id de_index da_index coordinator with
  | Ok (Some dd) =>
      if in_DATA_UNIT_MAP (DeviceData.energy_type dd)
      then Some ENERGY_WATT_HOUR else None
  | _ => None
  end.

Definition data_sensor (coordinator : DailyDataCoordinator)
    (system_id : string) (de_index : nat) (p : nat * DeviceData.t)
  : list DailyEntity :=
  [DataSensor {|
     DataSensor.system_id := system_id;
     DataSensor.de_index := de_index;
     DataSensor.da_index := p.1;
     DataSensor._attr_native_unit_of_measurement :=
       unit_at coordinator system_id de_index p.1 |}].

Definition device_level_sensors (coordinator : DailyDataCoordinator)
    (system_id : string) (p : nat * list DeviceData.t) : list DailyEntity :=
  if bool_decide (length p.2 = 0%nat) then []
  else EfficiencySensor system_id (Some p.1)
       :: (enumerate p.2 ≫= data_sensor coordinator system_id p.1).

Definition sensors_of_daily_system (coordinator : DailyDataCoordinator)
    (p : string * SystemDevices.t) : list DailyEntity :=
  EfficiencySensor p.1 None
  :: (enumerate (SystemDevices.devices_data p.2)
        ≫= device_level_sensors coordinator p.1).

Definition daily_sensors (coordinator : DailyDataCoordinator)
  : list DailyEntity :=
  default [] (Coordinator.data coordinator)
    ≫= sensors_of_daily_system coordinator.

(** The indices a sensor was built with. *)
Definition owner (e : SystemEntity) : nat :=
  match e with
  | SystemOutdoorTemperatureSensor i | SystemWaterPressureSensor i
  | HomeEntity i => i
  | SystemDeviceWaterPressureSensor i _
  | ZoneDesiredRoomTemperatureSetpointSensor i _
  | ZoneCurrentRoomTemperatureSensor i _ | ZoneHumiditySensor i _
  | ZoneHeatingOperatingModeSensor i _ | ZoneHeatingStateSensor i _
  | ZoneCurrentSpecialFunctionSensor i _
  | CircuitStateSensor i _ | CircuitFlowTemperatureSensor i _
  | CircuitHeatingCurveSensor i _ | CircuitMinFlowTemperatureSetpointSensor i _
  | DomesticHotWaterTankTemperatureSensor i _
  | DomesticHotWaterSetPointSensor i _
  | DomesticHotWaterOperationModeSensor i _
  | DomesticHotWaterCurrentSpecialFunctionSensor i _ => i
  end.

Definition daily_system_id (e : DailyEntity) : string :=
  match e with
  | DataSensor s => DataSensor.system_id s
  | EfficiencySensor system_id _ => system_id
  end.

Definition daily_de_index (e : DailyEntity) : option nat :=
  match e with
  | DataSensor s => Some (DataSensor.de_index s)
  | EfficiencySensor _ de_index => de_index
  end.

Definition daily_da_index (e : DailyEntity) : option nat :=
  match e with
  | DataSensor s => Some (DataSensor.da_index s)
  | EfficiencySensor _ _ => None
  end.

(** How often [x] occurs in [l]. *)
Definition count {A} `{EqDecision A} (x : A) (l : list A) : nat :=
  length (filter (λ y, y = x) l).

(** The coordinators of an instance: what the platform must leave alone. *)
Definition coordinators (hass : HomeAssistant.t)
  : SystemCoordinator * DailyDataCoordinator :=
  (HomeAssistant.system_coordinator hass,
   HomeAssistant.daily_data_coordinator hass).

(** Started with the coordinators [c], [m] returns [a] and the coordinators
    are still [c]. *)
Definition returns {A} (c : SystemCoordinator * DailyDataCoordinator)
    (m : M A) (a : A) : Prop :=
  ∀ hass, coordinators hass = c →
    ∃ hass', m hass = (Ok a, hass') ∧ coordinators hass' = c.

(** Whether it returns or raises, [m] leaves the coordinators as they are. *)
Definition preserves {A} (m : M A) : Prop :=
  ∀ hass, coordinators (m hass).2 = coordinators hass.

(** Reading a property of a sensor from inside Home Assistant. *)
Definition read_system {A} (property : SystemCoordinator → Result A) : M A :=
  coordinator ← get_system_coordinator; lift (property coordinator).
Definition read_daily {A} (property : DailyDataCoordinator → Result A) : M A :=
  coordinator ← get_daily_data_coordinator; lift (property coordinator).

(** ** Sample data *)

Definition sample_utils : Utils := {|
  DOMAIN := "mypyllant";
  get_name_prefix := λ home, home +:+ " ";
  get_unique_id_prefix := λ system_id, "mypyllant_" +:+ system_id +:+ "_";
|}.

Definition sample_enum : PyEnum := {| display_value := "Off" |}.

Definition sample_home : Home.t := {|
  Home.name := "Home";
  Home.nomenclature := "VRC700";
  Home.firmware_version := Some "1.0";
  Home.extra_fields := ∅;
|}.

Definition sample_dhw (temperature : option float) : DomesticHotWater.t := {|
  DomesticHotWater.index := 255;
  DomesticHotWater.current_dhw_temperature := temperature;
  DomesticHotWater.tapping_setpoint := Some 50%float;
  DomesticHotWater.operation_mode_dhw := sample_enum;
  DomesticHotWater.current_special_function := sample_enum;
|}.

Definition sample_system (temperature : option float) : System.t := {|
  System.id := "s1";
  System.outdoor_temperature := Some 7.25%float;
  System.water_pressure := None;
  System.brand_name := "Vaillant";
  System.home := sample_home;
  System.devices := [];
  System.zones := [];
  System.circuits := [];
  System.domestic_hot_water := [sample_dhw temperature];
  System.extra_fields := ∅;
|}.

Definition sample_device : Device.t := {|
  Device.name := "hp";
  Device.device_uuid := "u1";
  Device.name_display := "Heat Pump";
  Device.brand_name := "Vaillant";
  Device.product_name_display := "aroTHERM";
  Device.operational_data := ∅;
|}.

Definition sample_data (energy_type : string) (v : float) : DeviceData.t := {|
  DeviceData.device := Some sample_device;
  DeviceData.energy_type := Some energy_type;
  DeviceData.operation_mode := "DOMESTIC_HOT_WATER";
  DeviceData.data :=
    [ {| DeviceDataBucket.value := None |};
      {| DeviceDataBucket.value := Some v |} ];
|}.

Definition sample_devices : SystemDevices.t := {|
  SystemDevices.home_name := "Home";
  SystemDevices.devices_data :=
    [ [];
      [ sample_data "CONSUMED_ELECTRICAL_ENERGY" 1000%float;
        sample_data "HEAT_GENERATED" 3250%float;
        sample_data "RUNTIME" 5%float ] ];
|}.

Definition sample_daily : DailyDataCoordinator := {|
  Coordinator.data := Some [("s1", sample_devices)];
  Coordinator.last_update_success := true;
|}.

Definition sample_hass (temperature : option float) : HomeAssistant.t := {|
  HomeAssistant.system_coordinator := {|
    Coordinator.data := Some [sample_system temperature];
    Coordinator.last_update_success := true |};
  HomeAssistant.daily_data_coordinator := sample_daily;
  HomeAssistant.log := [];
|}.

Definition empty_hass : HomeAssistant.t := {|
  HomeAssistant.system_coordinator :=
    {| Coordinator.data := Some []; Coordinator.last_update_success := true |};
  HomeAssistant.daily_data_coordinator :=
    {| Coordinator.data := None; Coordinator.last_update_success := false |};
  HomeAssistant.log := [];
|}.

(** The cached data of both coordinators is the same after [m] as before. *)
Definition leaves_data {A} (m : M A) : Prop :=
  ∀ hass,
    Coordinator.data (HomeAssistant.system_coordinator (m hass).2)
    = Coordinator.data (HomeAssistant.system_coordinator hass)
    ∧ Coordinator.data (HomeAssistant.daily_data_coordinator (m hass).2)
      = Coordinator.data (HomeAssistant.daily_data_coordinator hass).

Definition sample_data_sensor (unit : option string) : DailyEntity :=
  DataSensor {|
    DataSensor.system_id := "s1";
    DataSensor.de_index := 1;
    DataSensor.da_index := 0;
    DataSensor._attr_native_unit_of_measurement := unit |}.

(** ** What a sensor reports on *)

(** The object a sensor class is bound to: the system itself, or one of its
    devices, zones, circuits or hot-water units. *)
Inductive Subject :=
| TheSystem
| ADevice
| AZone
| ACircuit
| AHotWaterUnit.

Global Instance Subject_eq_dec : EqDecision Subject.
Proof. solve_decision. Defined.

Definition subject (e : SystemEntity) : Subject :=
  match e with
  | SystemOutdoorTemperatureSensor _ | SystemWaterPressureSensor _
  | HomeEntity _ => TheSystem
  | SystemDeviceWaterPressureSensor _ _ => ADevice
  | ZoneDesiredRoomTemperatureSetpointSensor _ _
  | ZoneCurrentRoomTemperatureSensor _ _ | ZoneHumiditySensor _ _
  | ZoneHeatingOperatingModeSensor _ _ | ZoneHeatingStateSensor _ _
  | ZoneCurrentSpecialFunctionSensor _ _ => AZone
  | CircuitStateSensor _ _ | CircuitFlowTemperatureSensor _ _
  | CircuitHeatingCurveSensor _ _
  | CircuitMinFlowTemperatureSetpointSensor _ _ => ACircuit
  | DomesticHotWaterTankTemperatureSensor _ _
  | DomesticHotWaterSetPointSensor _ _
  | DomesticHotWaterOperationModeSensor _ _
  | DomesticHotWaterCurrentSpecialFunctionSensor _ _ => AHotWaterUnit
  end.

(** The second stored index: [device_index], [zone_index], [circuit_index]
    or [dhw_index]. *)
Definition inner_index (e : SystemEntity) : option nat :=
  match e with
  | SystemOutdoorTemperatureSensor _ | SystemWaterPressureSensor _
  | HomeEntity _ => None
  | SystemDeviceWaterPressureSensor _ j
  | ZoneDesiredRoomTemperatureSetpointSensor _ j
  | ZoneCurrentRoomTemperatureSensor _ j | ZoneHumiditySensor _ j
  | ZoneHeatingOperatingModeSensor _ j | ZoneHeatingStateSensor _ j
  | ZoneCurrentSpecialFunctionSensor _ j
  | CircuitStateSensor _ j | CircuitFlowTemperatureSensor _ j
  | CircuitHeatingCurveSensor _ j | CircuitMinFlowTemperatureSetpointSensor _ j
  | DomesticHotWaterTankTemperatureSensor _ j
  | DomesticHotWaterSetPointSensor _ j
  | DomesticHotWaterOperationModeSensor _ j
  | DomesticHotWaterCurrentSpecialFunctionSensor _ j => Some j
  end.

(** The sensors of a returned list that report on the object of kind [s] at
    [inner] of the system at [index], in the order of the list. *)
Definition sensors_on (s : Subject) (index : nat) (inner : option nat)
    (sensors : list SystemEntity) : list SystemEntity :=
  filter (λ e, owner e = index ∧ subject e = s ∧ inner_index e = inner) sensors.

(** The records [m] adds to the log all satisfy [P]. *)
Definition logs {A} (P : LogRecord → Prop) (m : M A) : Prop :=
  ∀ hass, ∃ records,
    HomeAssistant.log (m hass).2 = (HomeAssistant.log hass ++ records)%list
    ∧ Forall P records.

(** ** A fuller sample system *)

Definition sample_pump : Device.t := {|
  Device.name := "pump";
  Device.device_uuid := "u2";
  Device.name_display := "Pump";
  Device.brand_name := "Vaillant";
  Device.product_name_display := "VWZ";
  Device.operational_data :=
    {[ "water_pressure" := {[ "value" := PyFloat 1.5 ]} ]};
|}.

Definition sample_zone : Zone.t := {|
  Zone.index := 0;
  Zone.name := "Living";
  Zone.is_active := true;
  Zone.associated_circuit_index := Some 0%Z;
  Zone.desired_room_temperature_setpoint_heating := Some 0%float;
  Zone.desired_room_temperature_setpoint_cooling := None;
  Zone.desired_room_temperature_setpoint := Some 21%float;
  Zone.current_room_temperature := Some 20.5%float;
  Zone.current_room_humidity := None;
  Zone.heating := {| ZoneHeating.operation_mode_heating := sample_enum |};
  Zone.heating_state := sample_enum;
  Zone.current_special_function := sample_enum;
|}.

Definition sample_circuit : Circuit.t := {|
  Circuit.index := 0;
  Circuit.circuit_state := "HEATING";
  Circuit.current_circuit_flow_temperature := Some 35%float;
  Circuit.heating_curve := None;
  Circuit.min_flow_temperature_setpoint := Some 25%float;
  Circuit.extra_fields := ∅;
|}.

Definition sample_house : System.t := {|
  System.id := "s1";
  System.outdoor_temperature := Some 7.25%float;
  System.water_pressure := Some 1.5%float;
  System.brand_name := "Vaillant";
  System.home := sample_home;
  System.devices := [sample_device; sample_pump];
  System.zones := [sample_zone];
  System.circuits := [sample_circuit];
  System.domestic_hot_water := [sample_dhw (Some 45.5%float)];
  System.extra_fields := ∅;
|}.

Definition sample_house_hass : HomeAssistant.t := {|
  HomeAssistant.system_coordinator := {|
    Coordinator.data := Some [sample_house];
    Coordinator.last_update_success := true |};
  HomeAssistant.daily_data_coordinator := sample_daily;
  HomeAssistant.log := [];
|}.

(** How many devices, zones, circuits or hot-water units a system has. *)
Definition subject_length (s : Subject) (system : System.t) : nat :=
  match s with
  | TheSystem => 1
  | ADevice => length (System.devices system)
  | AZone => length (System.zones system)
  | ACircuit => length (System.circuits system)
  | AHotWaterUnit => length (System.domestic_hot_water system)
  end.

(** A coordinator before its first refresh. *)
Definition fresh_coordinator {D} : Coordinator.t D := {|
  Coordinator.data := None;
  Coordinator.last_update_success := false;
|}.

(** * Statements *)

Local Close Scope string_scope.
Local Open Scope list_scope.

(** ** The builtins on sample inputs *)

Example round_half_to_even :
  round 1.25 1 = 0x1.3333333333333p+0%float
  ∧ round 3.25 1 = 0x1.999999999999ap+1%float
  ∧ round (-0.03125) 1 = (-0)%float
  ∧ round infinity 1 = infinity.
Proof. repeat split; vm_compute; reflexivity. Qed.

Example title_of_energy_type :
  title (replace "_" " " "CONSUMED_ELECTRICAL_ENERGY")
  = "Consumed Electrical Energy"%string.
Proof. reflexivity. Qed.

Example str_of_int_signed :
  str_of_int (-5) = "-5"%string ∧ str_of_nat 12 = "12"%string.
Proof. split; reflexivity. Qed.

(** ** Running code inside Home Assistant *)

Lemma returns_ret {A} c (a : A) : returns c (mret a) a.
Proof. intros hass Hc. by exists hass. Qed.

Lemma returns_bind {A B} c (m : M A) (f : A → M B) a b :
  returns c m a → returns c (f a) b → returns c (m ≫= f) b.
Proof.
  intros Hm Hf hass Hc. destruct (Hm hass Hc) as (hass' & Hrun & Hc').
  unfold mbind, M_bind. rewrite Hrun. by apply Hf.
Qed.

Lemma returns_lift {A} c (r : Result A) a : r = Ok a → returns c (lift r) a.
Proof. intros -> hass Hc. by exists hass. Qed.

Lemma returns_for_each {A B} c (l : list A) (body : A → list B → M (list B))
    (f : A → list B) :
  (∀ x s, x ∈ l → returns c (body x s) (s ++ f x)) →
  ∀ s, returns c (for_each l body s) (s ++ (l ≫= f)).
Proof.
  induction l as [|x l IH]; intros Hbody s; simpl.
  - rewrite app_nil_r. apply returns_ret.
  - eapply returns_bind; [apply Hbody; left|].
    rewrite app_assoc. apply IH. intros y s' Hy. apply Hbody. by right.
Qed.

Lemma preserves_ret {A} (a : A) : preserves (mret a : M A).
Proof. by intros hass. Qed.

Lemma preserves_bind {A B} (m : M A) (f : A → M B) :
  preserves m → (∀ a, preserves (f a)) → preserves (m ≫= f).
Proof.
  intros Hm Hf hass. unfold mbind, M_bind.
  specialize (Hm hass). destruct (m hass) as [[a|e] hass']; simpl in *.
  - by rewrite Hf.
  - done.
Qed.

Lemma preserves_lift {A} (r : Result A) : preserves (lift r).
Proof. by intros hass. Qed.

Lemma preserves_for_each {A B} (l : list A) (body : A → B → M B) :
  (∀ x s, preserves (body x s)) → ∀ s, preserves (for_each l body s).
Proof.
  intros Hbody. induction l as [|x l IH]; intros s; simpl.
  - apply preserves_ret.
  - apply preserves_bind; [apply Hbody | apply IH].
Qed.

Lemma returns_preserved {A} c (m : M A) a hass :
  returns c m a → coordinators hass = c →
  (m hass).1 = Ok a ∧ coordinators (m hass).2 = coordinators hass.
Proof.
  intros Hm Hc. destruct (Hm hass Hc) as (hass' & -> & Hc'). simpl.
  by rewrite Hc, Hc'.
Qed.

Lemma returns_emit c r : returns c (emit r) tt.
Proof. intros hass Hc. eexists. split; [reflexivity|]. by destruct hass. Qed.

Lemma returns_debug c msg args : returns c (_LOGGER_debug msg args) tt.
Proof. apply returns_emit. Qed.

Lemma returns_warning c msg args : returns c (_LOGGER_warning msg args) tt.
Proof. apply returns_emit. Qed.

Lemma returns_get_system_coordinator c : returns c get_system_coordinator c.1.
Proof. intros hass <-. by exists hass. Qed.

Lemma returns_get_daily_data_coordinator c :
  returns c get_daily_data_coordinator c.2.
Proof. intros hass <-. by exists hass. Qed.

Lemma preserves_emit r : preserves (emit r).
Proof. by intros []. Qed.

Lemma preserves_get_system_coordinator : preserves get_system_coordinator.
Proof. by intros hass. Qed.

Lemma preserves_get_daily_data_coordinator :
  preserves get_daily_data_coordinator.
Proof. by intros hass. Qed.

Create HintDb frame discriminated.
#[export] Hint Resolve preserves_ret preserves_lift preserves_emit
  preserves_get_system_coordinator preserves_get_daily_data_coordinator : frame.

(** Peel one statement off a block of statements. *)
Ltac frame_step :=
  lazymatch goal with
  | |- preserves (mbind _ _) => apply preserves_bind; [|intros ?]
  | |- preserves (for_each _ _ _) => apply preserves_for_each; intros ? ?
  | |- preserves (_LOGGER_debug _ _) => apply preserves_emit
  | |- preserves (_LOGGER_warning _ _) => apply preserves_emit
  | |- preserves (let '(_, _) := ?p in _) => destruct p
  | |- preserves (match ?p with (_, _) => _ end _) => destruct p
  | |- preserves (if ?b then _ else _) => destruct b
  | |- preserves (match ?o with Some _ => _ | None => _ end) => destruct o
  | |- preserves _ => auto with frame
  end.
Ltac frame := repeat frame_step.

Lemma create_system_sensors_preserves : preserves create_system_sensors.
Proof. unfold create_system_sensors. frame. Qed.

Lemma DataSensor_init_preserves `{Utils} system_id de_index da_index :
  preserves (DataSensor.__init__ system_id de_index da_index).
Proof. unfold DataSensor.__init__. frame. Qed.

Lemma create_daily_data_sensors_preserves `{Utils} :
  preserves create_daily_data_sensors.
Proof.
  unfold create_daily_data_sensors. frame.
  apply DataSensor_init_preserves.
Qed.

Lemma read_system_preserves {A} (property : SystemCoordinator → Result A) :
  preserves (read_system property).
Proof. unfold read_system. frame. Qed.

Lemma read_daily_preserves {A} (property : DailyDataCoordinator → Result A) :
  preserves (read_daily property).
Proof. unfold read_daily. frame. Qed.

Lemma returns_eq {A} c (m : M A) a b : returns c m a → a = b → returns c m b.
Proof. by intros ? <-. Qed.

Lemma returns_ret_eq {A} c (a b : A) : a = b → returns c (mret a) b.
Proof. intros <-. apply returns_ret. Qed.

(** Run the statement at the head of a block. *)
Ltac run_step :=
  lazymatch goal with
  | |- returns _ (mbind _ (_LOGGER_debug _ _)) _ =>
      eapply returns_bind; [apply returns_debug|]
  | |- returns _ (mbind _ (_LOGGER_warning _ _)) _ =>
      eapply returns_bind; [apply returns_warning|]
  | |- returns _ (mbind _ get_system_coordinator) _ =>
      eapply returns_bind; [apply returns_get_system_coordinator|]
  | |- returns _ (mbind _ get_daily_data_coordinator) _ =>
      eapply returns_bind; [apply returns_get_daily_data_coordinator|]
  end.

Ltac close_appends :=
  unfold append; cbn [fst snd];
  repeat case_bool_decide; repeat case_match;
  rewrite ?app_nil_r, <- ?app_assoc; try reflexivity; try congruence.

Lemma create_system_sensors_returns
    (c : SystemCoordinator * DailyDataCoordinator) :
  returns c create_system_sensors (system_sensors c.1).
Proof.
  unfold create_system_sensors, system_sensors. run_step.
  destruct (Coordinator.data c.1) as [[|system l]|] eqn:Hdata; simpl no_data; cbv iota.
  1,3: run_step; by apply returns_ret_eq.
  run_step. eapply returns_eq; [|apply app_nil_l].
  apply (returns_for_each _ _ _ sensors_of_system).
  intros [index s] sensors _. unfold sensors_of_system. cbn [fst snd].
  eapply returns_bind.
  { apply (returns_for_each _ _ _ (device_sensors index)).
    intros [device_index device] acc _. run_step. unfold device_sensors.
    cbn [fst snd]. case_bool_decide; apply returns_ret_eq; close_appends. }
  eapply returns_bind.
  { apply (returns_for_each _ _ _ (zone_sensors index)).
    intros [zone_index zone] acc _. run_step. unfold zone_sensors.
    apply returns_ret_eq. close_appends. }
  eapply returns_bind.
  { apply (returns_for_each _ _ _ (circuit_sensors index)).
    intros [circuit_index circuit] acc _. run_step. unfold circuit_sensors.
    cbn [fst snd]. repeat case_bool_decide; apply returns_ret_eq; close_appends. }
  eapply returns_eq.
  { apply (returns_for_each _ _ _ (dhw_sensors index)).
    intros [dhw_index dhw] acc _. run_step. unfold dhw_sensors.
    apply returns_ret_eq. close_appends. }
  unfold system_level_sensors. close_appends.
Qed.

(** ** Dictionaries and enumerations *)

Lemma dict_get_elem_of {V} (d : dict V) k v :
  NoDup (dict_keys d) → (k, v) ∈ d → dict_get d k = Some v.
Proof.
  unfold dict_keys. induction d as [|[k' v'] d IH]; intros Hnd Hin.
  - by apply elem_of_nil in Hin.
  - rewrite fmap_cons in Hnd. apply NoDup_cons in Hnd as [Hk' Hnd].
    apply elem_of_cons in Hin as [Heq|Hin]; simpl.
    + injection Heq as -> ->. by rewrite String.eqb_refl.
    + destruct (String.eqb_spec k' k) as [->|_]; [|by apply IH].
      destruct Hk'. apply list_elem_of_fmap. by exists (k, v).
Qed.

Lemma dict_get_Some_elem_of {V} (d : dict V) k v :
  dict_get d k = Some v → (k, v) ∈ d.
Proof.
  induction d as [|[k' v'] d IH]; simpl; [done|].
  destruct (String.eqb_spec k' k) as [->|_].
  - intros [= ->]. left.
  - intros Hget. right. by apply IH.
Qed.

Lemma elem_of_enumerate {A} (l : list A) i x :
  (i, x) ∈ enumerate l ↔ l !! i = Some x.
Proof.
  unfold enumerate. rewrite elem_of_lookup_imap. split.
  - by intros (j & y & [= -> ->] & Hj).
  - intros Hi. by exists i, x.
Qed.

Lemma enumerate_indices {A} (l : list A) :
  (enumerate l).*1 = seq 0 (length l).
Proof.
  unfold enumerate. rewrite fmap_imap.
  rewrite (imap_ext _ (λ n _, n)); [|done].
  rewrite (imap_seq_0 l (λ n, n)). apply list_fmap_id.
Qed.

Lemma NoDup_enumerate {A} (l : list A) : NoDup (enumerate l).*1.
Proof. rewrite enumerate_indices. apply NoDup_seq. Qed.

Lemma list_getitem_lookup {A} (l : list A) i x :
  l !! i = Some x → list_getitem l i = Ok x.
Proof. unfold list_getitem. by intros ->. Qed.

(** ** The daily-data properties when the system id is cached *)

Section daily_present.
Context `{Utils}.
Context (coordinator : DailyDataCoordinator) (d : dict SystemDevices.t).
Context (system_id : string) (sd : SystemDevices.t).
Hypothesis Hdata : Coordinator.data coordinator = Some d.
Hypothesis Hsystem : dict_get d system_id = Some sd.

Lemma daily_subscript {A} (k : SystemDevices.t → Result A) :
  (d ← subscriptable coordinator; sd ← dict_getitem d system_id; k sd) = k sd.
Proof.
  unfold subscriptable, dict_getitem. rewrite Hdata. simpl.
  by rewrite Hsystem.
Qed.

Lemma DataSensor_device_data_present de_index da_index :
  DataSensor.device_data system_id de_index da_index coordinator
  = Ok (SystemDevices.devices_data sd !! de_index ≫= λ row, row !! da_index).
Proof.
  unfold DataSensor.device_data. rewrite daily_subscript.
  case_bool_decide as Hde.
  - by rewrite (lookup_ge_None_2 _ _ Hde).
  - destruct (lookup_lt_is_Some_2 (SystemDevices.devices_data sd) de_index)
      as [row Hrow]; [lia|].
    rewrite (list_getitem_lookup _ _ _ Hrow), Hrow. simpl.
    case_bool_decide as Hda.
    + by rewrite (lookup_ge_None_2 _ _ Hda).
    + destruct (lookup_lt_is_Some_2 row da_index) as [x Hx]; [lia|].
      by rewrite (list_getitem_lookup _ _ _ Hx), Hx.
Qed.

Lemma DataSensor_home_name_present :
  DataSensor.home_name system_id coordinator = Ok (SystemDevices.home_name sd).
Proof. unfold DataSensor.home_name. by rewrite daily_subscript. Qed.

Lemma DataSensor_device_present de_index da_index :
  DataSensor.device system_id de_index da_index coordinator
  = Ok (dd ← (SystemDevices.devices_data sd !! de_index
              ≫= λ row, row !! da_index);
        DeviceData.device dd).
Proof.
  unfold DataSensor.device. rewrite DataSensor_device_data_present.
  simpl. by case_match.
Qed.

Lemma DataSensor_data_bucket_present de_index da_index :
  DataSensor.data_bucket system_id de_index da_index coordinator
  = Ok (dd ← (SystemDevices.devices_data sd !! de_index
              ≫= λ row, row !! da_index);
        last (filter (λ b, DeviceDataBucket.value b ≠ None) (DeviceData.data dd))).
Proof.
  unfold DataSensor.data_bucket. rewrite DataSensor_device_data_present.
  simpl. case_match; [|done]. simpl.
  unfold list_last. case_bool_decide as Hlen.
  - destruct (last _) eqn:Hlast; [done|].
    apply last_None in Hlast. rewrite Hlast in Hlen. simpl in Hlen. lia.
  - destruct (filter _ _); [done|simpl in Hlen; lia].
Qed.

Lemma DataSensor_name_returns de_index da_index :
  ∃ v, DataSensor.name system_id de_index da_index coordinator = Ok v.
Proof.
  unfold DataSensor.name. rewrite DataSensor_device_present.
  rewrite DataSensor_device_data_present, DataSensor_home_name_present.
  simpl. repeat case_match; by eexists.
Qed.

Lemma DataSensor_unique_id_returns de_index da_index :
  ∃ v, DataSensor.unique_id system_id de_index da_index coordinator = Ok v.
Proof.
  unfold DataSensor.unique_id. rewrite DataSensor_device_present.
  simpl. case_match; by eexists.
Qed.

Lemma DataSensor_native_value_returns de_index da_index :
  ∃ v, DataSensor.native_value system_id de_index da_index coordinator = Ok v.
Proof.
  unfold DataSensor.native_value. rewrite DataSensor_data_bucket_present.
  simpl. case_match; by eexists.
Qed.
End daily_present.

Lemma DATA_UNIT_MAP_values k u :
  dict_get DATA_UNIT_MAP k = Some u → u = ENERGY_WATT_HOUR.
Proof.
  unfold DATA_UNIT_MAP. cbn [dict_get].
  repeat match goal with
         | |- context [String.eqb ?known k] =>
             destruct (String.eqb known k); [intros [= <-]; reflexivity|]
         end.
  intros [=].
Qed.

Lemma DATA_UNIT_MAP_getitem_known key :
  in_DATA_UNIT_MAP key = true →
  DataSensor.DATA_UNIT_MAP_getitem key = Ok ENERGY_WATT_HOUR.
Proof.
  destruct key as [k|]; [|done]. unfold in_DATA_UNIT_MAP, dict_contains.
  intros [u Hu]%bool_decide_eq_true. simpl. unfold dict_getitem.
  rewrite Hu. by rewrite (DATA_UNIT_MAP_values _ _ Hu).
Qed.

Lemma DataSensor_init_returns `{Utils}
    (c : SystemCoordinator * DailyDataCoordinator) d system_id sd
    de_index da_index :
  Coordinator.data c.2 = Some d →
  dict_get d system_id = Some sd →
  returns c (DataSensor.__init__ system_id de_index da_index)
    {| DataSensor.system_id := system_id;
       DataSensor.de_index := de_index;
       DataSensor.da_index := da_index;
       DataSensor._attr_native_unit_of_measurement :=
         unit_at c.2 system_id de_index da_index |}.
Proof.
  intros Hdata Hsystem. unfold DataSensor.__init__, unit_at. run_step.
  pose proof (DataSensor_device_data_present _ _ _ _ Hdata Hsystem
                de_index da_index) as Hdd.
  destruct (DataSensor_name_returns _ _ _ _ Hdata Hsystem de_index da_index)
    as [n Hn].
  destruct (DataSensor_native_value_returns _ _ _ _ Hdata Hsystem
              de_index da_index) as [v Hv].
  destruct (DataSensor_unique_id_returns _ _ _ _ Hdata Hsystem
              de_index da_index) as [u Hu].
  rewrite Hdd.
  eapply returns_bind; [by apply returns_lift|].
  assert (∀ unit, returns c
    (n ← lift (DataSensor.name system_id de_index da_index c.2);
     v ← lift (DataSensor.native_value system_id de_index da_index c.2);
     u ← lift (DataSensor.unique_id system_id de_index da_index c.2);
     _LOGGER_debug "Finishing init of %s = %s and unique id %s"
                   [ArgVal n; ArgVal v; ArgVal u];;
     mret {| DataSensor.system_id := system_id;
             DataSensor.de_index := de_index;
             DataSensor.da_index := da_index;
             DataSensor._attr_native_unit_of_measurement := unit |})
    {| DataSensor.system_id := system_id;
       DataSensor.de_index := de_index;
       DataSensor.da_index := da_index;
       DataSensor._attr_native_unit_of_measurement := unit |}) as Hrest.
  { intros unit. rewrite Hn, Hv, Hu.
    do 3 (eapply returns_bind; [by apply returns_lift|]).
    run_step. apply returns_ret. }
  destruct (_ ≫= _) as [dd|]; cbv iota.
  - destruct (in_DATA_UNIT_MAP (DeviceData.energy_type dd)) eqn:Hin.
    + eapply returns_bind; [|apply Hrest].
      eapply returns_bind;
        [apply returns_lift, DATA_UNIT_MAP_getitem_known, Hin|].
      apply returns_ret.
    + eapply returns_bind; [apply returns_ret|apply Hrest].
  - eapply returns_bind; [apply returns_ret|apply Hrest].
Qed.

Lemma create_daily_data_sensors_returns `{Utils}
    (c : SystemCoordinator * DailyDataCoordinator) :
  NoDup (dict_keys (default [] (Coordinator.data c.2))) →
  returns c create_daily_data_sensors (daily_sensors c.2).
Proof.
  intros Hkeys. unfold create_daily_data_sensors, daily_sensors.
  run_step. run_step. destruct c as [sc dc]. cbn [snd] in *.
  unfold DailyDataCoordinator, dict in *.
  destruct (Coordinator.data dc) as [[|item d']|] eqn:Hdata; simpl no_data;
    cbv iota.
  1,3: run_step; by apply returns_ret_eq.
  set (d := item :: d') in *. clearbody d. simpl default in *.
  eapply returns_eq; [|apply app_nil_l].
  apply (returns_for_each _ _ _ (sensors_of_daily_system dc)).
  intros [system_id sd] sensors Hitem. cbv beta iota. run_step.
  pose proof (dict_get_elem_of _ _ _ Hkeys Hitem) as Hsystem.
  eapply returns_eq.
  { apply (returns_for_each _ _ _ (device_level_sensors dc system_id)).
    intros [de_index row] acc Hrow%elem_of_enumerate.
    unfold device_level_sensors. cbn [fst snd].
    case_bool_decide; [apply returns_ret_eq; by rewrite app_nil_r|].
    run_step. run_step. cbn [snd].
    eapply returns_bind.
    { apply returns_lift. unfold subscriptable, dict_getitem.
      rewrite Hdata. simpl. rewrite Hsystem.
      by apply list_getitem_lookup. }
    eapply returns_eq.
    { apply (returns_for_each _ _ _ (data_sensor dc system_id de_index)).
      intros [da_index x] acc' _. cbv beta iota.
      eapply returns_bind;
        [by apply (DataSensor_init_returns (sc, dc) d system_id sd)|].
      apply returns_ret_eq. reflexivity. }
    unfold append. by rewrite <- app_assoc. }
  unfold sensors_of_daily_system, append. cbn [fst snd].
  by rewrite <- app_assoc.
Qed.

(** ** Selecting from a concatenation *)

Section selecting.
Context {A B : Type} (P : B → Prop) `{!∀ y, Decision (P y)}.

Lemma filter_all (l : list B) : (∀ y, y ∈ l → P y) → filter P l = l.
Proof.
  induction l as [|y l IH]; intros Hall; [done|].
  rewrite filter_cons_True by (apply Hall; left).
  f_equal. apply IH. intros z Hz. apply Hall. by right.
Qed.

Lemma filter_none (l : list B) : (∀ y, y ∈ l → ¬ P y) → filter P l = [].
Proof.
  induction l as [|y l IH]; intros Hnone; [done|].
  rewrite filter_cons_False by (apply Hnone; left).
  apply IH. intros z Hz. apply Hnone. by right.
Qed.

Lemma filter_bind_none (f : A → list B) (l : list A) :
  (∀ x y, x ∈ l → y ∈ f x → ¬ P y) → filter P (l ≫= f) = [].
Proof.
  intros Hnone. apply filter_none. intros y (x & Hy & Hx)%list_elem_of_bind.
  by apply (Hnone x).
Qed.

(** When the parts of a concatenation carry distinct tags and [P] holds
    exactly of what the part tagged [t] contributes, filtering by [P] gives
    that part back. *)
Lemma filter_bind_select {T} (tag : A → T) (t : T) (f : A → list B)
    (l : list A) (x : A) :
  NoDup (tag <$> l) → x ∈ l → tag x = t →
  (∀ x' y, x' ∈ l → y ∈ f x' → (P y ↔ tag x' = t)) →
  filter P (l ≫= f) = f x.
Proof.
  induction l as [|a l IH]; intros Hnd Hx Ht HP.
  - by apply elem_of_nil in Hx.
  - rewrite fmap_cons in Hnd. apply NoDup_cons in Hnd as [Ha Hnd].
    rewrite bind_cons, filter_app.
    apply elem_of_cons in Hx as [->|Hx].
    + rewrite filter_all, filter_bind_none, app_nil_r; [done| |].
      * intros x' y Hx' Hy HPy. apply Ha.
        apply (HP x' y) in HPy; [|by right|done].
        apply list_elem_of_fmap. exists x'. split; [congruence|done].
      * intros y Hy. apply (HP a y); [left|done|done].
    + rewrite filter_none, IH; [done..| |].
      * intros x' y Hx' Hy. apply HP; [by right|done].
      * intros y Hy HPy. apply Ha.
        apply (HP a y) in HPy; [|left|done].
        apply list_elem_of_fmap. exists x. split; [congruence|done].
Qed.

Lemma filter_bind_unselected {T} (tag : A → T) (t : T) (f : A → list B)
    (l : list A) :
  t ∉ tag <$> l →
  (∀ x' y, x' ∈ l → y ∈ f x' → (P y ↔ tag x' = t)) →
  filter P (l ≫= f) = [].
Proof.
  intros Ht HP. apply filter_bind_none. intros x y Hx Hy HPy. apply Ht.
  apply (HP x y) in HPy; [|done..].
  apply list_elem_of_fmap. by exists x.
Qed.
End selecting.

Lemma count_filter {A} `{EqDecision A} (P : A → Prop) `{!∀ y, Decision (P y)}
    (x : A) (l : list A) :
  P x → count x (filter P l) = count x l.
Proof.
  intros HP. unfold count. rewrite list_filter_filter. f_equal.
  apply list_filter_iff. intros y. split; [tauto|]. by intros ->.
Qed.

Lemma elem_of_count {A} `{EqDecision A} (x : A) (l : list A) :
  x ∈ l ↔ 0 < count x l.
Proof.
  unfold count. split.
  - intros Hx. assert (x ∈ filter (λ y, y = x) l) as Hin
      by by apply list_elem_of_filter.
    destruct (filter _ l); [by apply elem_of_nil in Hin|simpl; lia].
  - intros Hlen. destruct (filter (λ y, y = x) l) as [|y k] eqn:Hf;
      [simpl in Hlen; lia|].
    assert (y ∈ filter (λ y, y = x) l) as [-> Hy]%list_elem_of_filter
      by (rewrite Hf; left).
    done.
Qed.

Lemma bind_enumerate_singleton {A B} (g : nat → A → B) (l : list A) :
  enumerate l ≫= (λ p, [g p.1 p.2]) = imap g l.
Proof.
  unfold enumerate. revert g.
  assert (∀ (h : nat → A → nat * A) (g : nat → A → B),
    imap h l ≫= (λ p, [g p.1 p.2])
    = imap (λ n x, g (h n x).1 (h n x).2) l) as Hgen.
  { induction l as [|x l IH]; intros h g; [done|].
    rewrite !imap_cons, bind_cons. simpl. f_equal. apply IH. }
  intros g. apply Hgen.
Qed.

Lemma count_app {A} `{EqDecision A} (x : A) (l k : list A) :
  count x (l ++ k) = count x l + count x k.
Proof. unfold count. by rewrite filter_app, length_app. Qed.

Lemma count_not_elem_of {A} `{EqDecision A} (x : A) (l : list A) :
  x ∉ l → count x l = 0.
Proof.
  intros Hx. destruct (count x l) eqn:Hc; [done|].
  destruct Hx. apply elem_of_count. lia.
Qed.

Lemma count_singleton {A} `{EqDecision A} (x : A) : count x [x] = 1.
Proof. unfold count. by rewrite filter_cons_True. Qed.

(** ** The system factory *)

Lemma create_system_sensors_result hass :
  (create_system_sensors hass).1
  = Ok (system_sensors (HomeAssistant.system_coordinator hass)).
Proof.
  by destruct (returns_preserved _ _ _ hass
                 (create_system_sensors_returns (coordinators hass)) eq_refl).
Qed.

(** Case analysis on a sensor that occurs in a list given by cases. *)
Ltac elem_cases :=
  repeat match goal with
  | H : _ ∈ _ ++ _ |- _ => apply elem_of_app in H as [H|H]
  | H : _ ∈ _ :: _ |- _ => apply elem_of_cons in H as [->|H]
  | H : _ ∈ [] |- _ => by apply elem_of_nil in H
  | H : _ ∈ (if ?b then _ else _) |- _ => destruct b eqn:?
  | H : _ ∈ _ ≫= _ |- _ =>
      let x := fresh "x" in
      let Hx := fresh "Hx" in
      apply list_elem_of_bind in H as (x & H & Hx)
  end.

Lemma owner_sensors_of_system p e : e ∈ sensors_of_system p → owner e = p.1.
Proof.
  unfold sensors_of_system, system_level_sensors, device_sensors, zone_sensors,
    circuit_sensors, dhw_sensors.
  intros He. elem_cases; done.
Qed.

(** The sensors built with system index [i] are those of the system cached
    at [i], in the order the factory builds them. *)
Lemma system_sensors_owned coordinator l i system :
  Coordinator.data coordinator = Some l →
  l !! i = Some system →
  filter (λ e, owner e = i) (system_sensors coordinator)
  = sensors_of_system (i, system).
Proof.
  intros Hdata Hi. unfold system_sensors. rewrite Hdata. simpl default.
  apply (filter_bind_select _ fst i).
  - apply NoDup_enumerate.
  - by apply elem_of_enumerate.
  - done.
  - intros x' y _ Hy. by rewrite (owner_sensors_of_system _ _ Hy).
Qed.

Lemma elem_of_system_sensors coordinator l i system e :
  Coordinator.data coordinator = Some l →
  l !! i = Some system →
  owner e = i →
  (e ∈ system_sensors coordinator ↔ e ∈ sensors_of_system (i, system)) ∧
  count e (system_sensors coordinator) = count e (sensors_of_system (i, system)).
Proof.
  intros Hdata Hi Howner.
  rewrite <- (system_sensors_owned _ _ _ _ Hdata Hi). split.
  - rewrite list_elem_of_filter. tauto.
  - by rewrite count_filter.
Qed.

(** C2. For the system cached at index [i], [create_system_sensors] builds
    a [SystemOutdoorTemperatureSensor] for [i] exactly when the system's
    [outdoor_temperature] is not [None], a [SystemWaterPressureSensor] for [i]
    exactly when its [water_pressure] is not [None], and one [HomeEntity] for
    [i], no more and no less. *)
Theorem create_system_sensors_system_level hass l i system :
  Coordinator.data (HomeAssistant.system_coordinator hass) = Some l →
  l !! i = Some system →
  ∃ sensors,
    (create_system_sensors hass).1 = Ok sensors
    ∧ (SystemOutdoorTemperatureSensor i ∈ sensors
       ↔ System.outdoor_temperature system ≠ None)
    ∧ (SystemWaterPressureSensor i ∈ sensors
       ↔ System.water_pressure system ≠ None)
    ∧ count (HomeEntity i) sensors = 1.
Proof.
  intros Hdata Hi. eexists. split; [apply create_system_sensors_result|].
  destruct (elem_of_system_sensors _ _ _ _ (SystemOutdoorTemperatureSensor i)
              Hdata Hi eq_refl) as [-> _].
  destruct (elem_of_system_sensors _ _ _ _ (SystemWaterPressureSensor i)
              Hdata Hi eq_refl) as [-> _].
  destruct (elem_of_system_sensors _ _ _ _ (HomeEntity i)
              Hdata Hi eq_refl) as [_ ->].
  unfold sensors_of_system, system_level_sensors, device_sensors, zone_sensors,
    circuit_sensors, dhw_sensors. cbn [fst snd].
  split; [|split].
  - split.
    + intros He. remember (SystemOutdoorTemperatureSensor i) as e.
      elem_cases; try done; by eapply bool_decide_eq_true_1.
    + intros Hsome. rewrite (bool_decide_eq_true_2 _ Hsome).
      rewrite !elem_of_app, !elem_of_cons. tauto.
  - split.
    + intros He. remember (SystemWaterPressureSensor i) as e.
      elem_cases; try done; by eapply bool_decide_eq_true_1.
    + intros Hsome. rewrite (bool_decide_eq_true_2 _ Hsome).
      rewrite !elem_of_app, !elem_of_cons. tauto.
  - rewrite !count_app, count_singleton.
    rewrite !count_not_elem_of; [done|..];
      intros He; remember (HomeEntity i) as e; elem_cases; done.
Qed.

(** The tank-temperature sensor of a hot-water unit is built exactly when its
    temperature is truthy: present and different from zero. *)
Lemma tank_temperature_sensor_iff_truthy hass l i system j dhw :
  Coordinator.data (HomeAssistant.system_coordinator hass) = Some l →
  l !! i = Some system →
  System.domestic_hot_water system !! j = Some dhw →
  ∃ sensors,
    (create_system_sensors hass).1 = Ok sensors
    ∧ (DomesticHotWaterTankTemperatureSensor i j ∈ sensors
       ↔ truthy (DomesticHotWater.current_dhw_temperature dhw) = true).
Proof.
  intros Hdata Hi Hj. eexists. split; [apply create_system_sensors_result|].
  destruct (elem_of_system_sensors _ _ _ _
              (DomesticHotWaterTankTemperatureSensor i j) Hdata Hi eq_refl)
    as [-> _].
  unfold sensors_of_system, system_level_sensors, device_sensors, zone_sensors,
    circuit_sensors, dhw_sensors. cbn [fst snd]. split.
  - intros He. remember (DomesticHotWaterTankTemperatureSensor i j) as e.
    elem_cases; try done.
    injection Heqe as <-. destruct x as [j' dhw'].
    apply elem_of_enumerate in Hx. cbn [fst snd] in *. congruence.
  - intros Htruthy. rewrite !elem_of_app. do 4 right.
    apply list_elem_of_bind. exists (j, dhw). split.
    + cbn [fst snd]. rewrite Htruthy. left.
    + by apply elem_of_enumerate.
Qed.

(** C1. The claim fails where the cached tank temperature is 0.0: the value
    is present, and no [DomesticHotWaterTankTemperatureSensor] is built for
    the unit, while the three other sensors of the unit are. *)
Theorem tank_temperature_sensor_skipped_at_zero :
  DomesticHotWater.current_dhw_temperature (sample_dhw (Some 0%float)) ≠ None
  ∧ (create_system_sensors (sample_hass (Some 0%float))).1
    = Ok [SystemOutdoorTemperatureSensor 0; HomeEntity 0;
          DomesticHotWaterSetPointSensor 0 0;
          DomesticHotWaterOperationModeSensor 0 0;
          DomesticHotWaterCurrentSpecialFunctionSensor 0 0]
  ∧ (create_system_sensors (sample_hass (Some 45.5%float))).1
    = Ok [SystemOutdoorTemperatureSensor 0; HomeEntity 0;
          DomesticHotWaterTankTemperatureSensor 0 0;
          DomesticHotWaterSetPointSensor 0 0;
          DomesticHotWaterOperationModeSensor 0 0;
          DomesticHotWaterCurrentSpecialFunctionSensor 0 0].
Proof. split; [done|]. split; vm_compute; reflexivity. Qed.

(** C5. Where the coordinator caches a system at the stored index, the
    outdoor-temperature sensor returns that system's [outdoor_temperature]
    rounded to one decimal, or [None] when it is [None]; the water-pressure
    sensor does the same with [water_pressure]. *)
Theorem system_native_value_reads_fixed_path
    (coordinator : SystemCoordinator) l index system :
  Coordinator.data coordinator = Some l →
  l !! index = Some system →
  SystemEntity.native_value (SystemOutdoorTemperatureSensor index) coordinator
  = Ok match System.outdoor_temperature system with
       | Some v => PyFloat (round v 1)
       | None => PyNone
       end
  ∧ SystemEntity.native_value (SystemWaterPressureSensor index) coordinator
    = Ok match System.water_pressure system with
         | Some v => PyFloat (round v 1)
         | None => PyNone
         end.
Proof.
  intros Hdata Hindex. cbn [SystemEntity.native_value].
  unfold SystemOutdoorTemperatureSensor.native_value,
    SystemWaterPressureSensor.native_value, SystemSensor.system,
    subscriptable.
  rewrite Hdata. simpl. rewrite (list_getitem_lookup _ _ _ Hindex). simpl.
  split; by case_match.
Qed.

Lemma system_native_value_sample :
  Coordinator.data (HomeAssistant.system_coordinator (sample_hass None))
  = Some [sample_system None]
  ∧ [sample_system None] !! 0 = Some (sample_system None)
  ∧ SystemEntity.native_value (SystemOutdoorTemperatureSensor 0)
      (HomeAssistant.system_coordinator (sample_hass None))
    = Ok (PyFloat (round 7.25 1))
  ∧ SystemEntity.native_value (SystemWaterPressureSensor 0)
      (HomeAssistant.system_coordinator (sample_hass None))
    = Ok PyNone.
Proof.
  split; [reflexivity|]. split; [reflexivity|].
  apply (system_native_value_reads_fixed_path _ [sample_system None] 0
           (sample_system None)); reflexivity.
Defined.

Lemma create_system_sensors_sample :
  ∃ sensors,
    (create_system_sensors (sample_hass None)).1 = Ok sensors
    ∧ (SystemOutdoorTemperatureSensor 0 ∈ sensors
       ↔ System.outdoor_temperature (sample_system None) ≠ None)
    ∧ (SystemWaterPressureSensor 0 ∈ sensors
       ↔ System.water_pressure (sample_system None) ≠ None)
    ∧ count (HomeEntity 0) sensors = 1.
Proof.
  apply (create_system_sensors_system_level (sample_hass None)
           [sample_system None] 0 (sample_system None)); reflexivity.
Defined.

Lemma create_daily_data_sensors_result `{Utils} hass :
  NoDup (dict_keys
           (default [] (Coordinator.data
                          (HomeAssistant.daily_data_coordinator hass)))) →
  (create_daily_data_sensors hass).1
  = Ok (daily_sensors (HomeAssistant.daily_data_coordinator hass)).
Proof.
  intros Hkeys.
  by destruct (returns_preserved _ _ _ hass
                 (create_daily_data_sensors_returns (coordinators hass) Hkeys)
                 eq_refl).
Qed.

(** C8. Without system data (none cached yet, or an empty list)
    [create_system_sensors] returns the empty list, and without daily data
    (none cached yet, or an empty dict) so does [create_daily_data_sensors];
    neither raises. *)
Theorem factories_without_data `{Utils} (hass hass' : HomeAssistant.t) :
  Coordinator.data (HomeAssistant.system_coordinator hass) = None
    ∨ Coordinator.data (HomeAssistant.system_coordinator hass) = Some [] →
  Coordinator.data (HomeAssistant.daily_data_coordinator hass') = None
    ∨ Coordinator.data (HomeAssistant.daily_data_coordinator hass') = Some [] →
  (create_system_sensors hass).1 = Ok []
  ∧ (create_daily_data_sensors hass').1 = Ok [].
Proof.
  intros Hsystem Hdaily. split.
  - rewrite create_system_sensors_result. unfold system_sensors.
    by destruct Hsystem as [-> | ->].
  - rewrite create_daily_data_sensors_result.
    + unfold daily_sensors. by destruct Hdaily as [-> | ->].
    + destruct Hdaily as [-> | ->]; constructor.
Qed.

Lemma factories_without_data_sample :
  (create_system_sensors empty_hass).1 = Ok []
  ∧ (@create_daily_data_sensors sample_utils empty_hass).1 = Ok [].
Proof.
  apply (@factories_without_data sample_utils empty_hass empty_hass).
  - right. reflexivity.
  - left. reflexivity.
Defined.

(** ** The daily-data factory *)

Lemma daily_indices_of_device_level coordinator system_id p e :
  e ∈ device_level_sensors coordinator system_id p →
  daily_system_id e = system_id ∧ daily_de_index e = Some p.1.
Proof.
  unfold device_level_sensors, data_sensor. intros He. by elem_cases.
Qed.

Lemma daily_system_id_of_system coordinator p e :
  e ∈ sensors_of_daily_system coordinator p → daily_system_id e = p.1.
Proof.
  unfold sensors_of_daily_system. intros He. elem_cases; [done|].
  by apply daily_indices_of_device_level in He as [-> _].
Qed.

(** The sensors built for a cached system id are those of its entry, in the
    order the factory builds them. *)
Lemma daily_sensors_owned coordinator d system_id sd :
  Coordinator.data coordinator = Some d →
  NoDup (dict_keys d) →
  (system_id, sd) ∈ d →
  filter (λ e, daily_system_id e = system_id) (daily_sensors coordinator)
  = sensors_of_daily_system coordinator (system_id, sd).
Proof.
  intros Hdata Hkeys Hitem. unfold daily_sensors. rewrite Hdata. simpl default.
  apply (filter_bind_select _ fst system_id); [done..|].
  intros x' y _ Hy. by rewrite (daily_system_id_of_system _ _ _ Hy).
Qed.

(** C3. For a system id in the daily data, [create_daily_data_sensors]
    builds one system-level [EfficiencySensor] (its [de_index] is [None]); for
    an empty device-data list it builds nothing; for a non-empty one it builds
    one per-device [EfficiencySensor] followed by one [DataSensor] per entry
    of the list.  All of them are in the one list it returns. *)
Theorem create_daily_data_sensors_per_system `{Utils} hass d system_id sd :
  Coordinator.data (HomeAssistant.daily_data_coordinator hass) = Some d →
  NoDup (dict_keys d) →
  (system_id, sd) ∈ d →
  ∃ sensors,
    (create_daily_data_sensors hass).1 = Ok sensors
    ∧ filter (λ e, daily_system_id e = system_id ∧ daily_de_index e = None)
        sensors
      = [EfficiencySensor system_id None]
    ∧ ∀ de_index row,
        SystemDevices.devices_data sd !! de_index = Some row →
        filter (λ e, daily_system_id e = system_id
                     ∧ daily_de_index e = Some de_index) sensors
        = match row with
          | [] => []
          | _ :: _ =>
              EfficiencySensor system_id (Some de_index)
              :: imap (λ da_index _, DataSensor {|
                   DataSensor.system_id := system_id;
                   DataSensor.de_index := de_index;
                   DataSensor.da_index := da_index;
                   DataSensor._attr_native_unit_of_measurement :=
                     unit_at (HomeAssistant.daily_data_coordinator hass)
                             system_id de_index da_index |}) row
          end.
Proof.
  intros Hdata Hkeys Hitem. eexists. split.
  { apply create_daily_data_sensors_result. by rewrite Hdata. }
  set (dc := HomeAssistant.daily_data_coordinator hass) in *.
  assert (∀ (Q : DailyEntity → Prop) `{!∀ e, Decision (Q e)},
    filter (λ e, daily_system_id e = system_id ∧ Q e) (daily_sensors dc)
    = filter Q (sensors_of_daily_system dc (system_id, sd))) as Hsplit.
  { intros Q ?. rewrite <- (daily_sensors_owned _ _ _ _ Hdata Hkeys Hitem).
    rewrite list_filter_filter. apply list_filter_iff. tauto. }
  split.
  - rewrite Hsplit. unfold sensors_of_daily_system. cbn [fst snd].
    rewrite filter_cons_True by done. f_equal.
    apply filter_bind_none. intros x y _ Hy.
    apply daily_indices_of_device_level in Hy as [_ ->]. done.
  - intros de_index row Hrow. rewrite Hsplit.
    unfold sensors_of_daily_system. cbn [fst snd].
    rewrite filter_cons_False by done.
    rewrite (filter_bind_select _ fst de_index _ _ (de_index, row)).
    + unfold device_level_sensors. cbn [fst snd].
      destruct row as [|x row]; [done|].
      rewrite bool_decide_eq_false_2 by done. f_equal.
      apply (bind_enumerate_singleton
               (λ da_index _, DataSensor {|
                  DataSensor.system_id := system_id;
                  DataSensor.de_index := de_index;
                  DataSensor.da_index := da_index;
                  DataSensor._attr_native_unit_of_measurement :=
                    unit_at dc system_id de_index da_index |})).
    + apply NoDup_enumerate.
    + by apply elem_of_enumerate.
    + done.
    + intros x' y _ Hy.
      apply daily_indices_of_device_level in Hy as [_ ->]. naive_solver.
Qed.

Lemma create_daily_data_sensors_sample :
  ∃ sensors,
    (@create_daily_data_sensors sample_utils (sample_hass None)).1 = Ok sensors
    ∧ filter (λ e, daily_system_id e = "s1"%string ∧ daily_de_index e = None)
        sensors
      = [EfficiencySensor "s1" None]
    ∧ ∀ de_index row,
        SystemDevices.devices_data sample_devices !! de_index = Some row →
        filter (λ e, daily_system_id e = "s1"%string
                     ∧ daily_de_index e = Some de_index) sensors
        = match row with
          | [] => []
          | _ :: _ =>
              EfficiencySensor "s1" (Some de_index)
              :: imap (λ da_index _, DataSensor {|
                   DataSensor.system_id := "s1";
                   DataSensor.de_index := de_index;
                   DataSensor.da_index := da_index;
                   DataSensor._attr_native_unit_of_measurement :=
                     unit_at sample_daily "s1" de_index da_index |}) row
          end.
Proof.
  apply (@create_daily_data_sensors_per_system sample_utils (sample_hass None)
           [("s1"%string, sample_devices)] "s1"%string sample_devices eq_refl).
  - apply NoDup_singleton.
  - left.
Defined.

(** ** DataSensor *)

Lemma in_DATA_UNIT_MAP_known (energy_type : option string) :
  in_DATA_UNIT_MAP energy_type = true
  ↔ ∃ key, energy_type = Some key
           ∧ key ∈ ["CONSUMED_ELECTRICAL_ENERGY"; "EARNED_ENVIRONMENT_ENERGY";
                    "HEAT_GENERATED"; "CONSUMED_PRIMARY_ENERGY";
                    "EARNED_SOLAR_ENERGY"]%string.
Proof.
  destruct energy_type as [key|]; [|split; [done|by intros (? & ? & _)]].
  unfold in_DATA_UNIT_MAP, dict_contains, DATA_UNIT_MAP.
  rewrite bool_decide_eq_true. cbn [dict_get]. split.
  - repeat match goal with
           | |- context [String.eqb ?known key] =>
               destruct (String.eqb_spec known key) as [<-|_];
                 [intros _; eexists; split; [done|];
                  rewrite !elem_of_cons; naive_solver|]
           end.
    by intros [].
  - intros (? & [= <-] & Hkey).
    repeat (apply elem_of_cons in Hkey as [->|Hkey]; [by eexists|]).
    by apply elem_of_nil in Hkey.
Qed.

Lemma last_elem_of {A} (l : list A) x : last l = Some x → x ∈ l.
Proof.
  intros (l' & ->)%last_Some. apply elem_of_app. right. left.
Qed.

(** C4. A [DataSensor] built for a cached system id carries the watt-hour
    unit exactly when the device data it finds at construction has one of the
    five keys of [DATA_UNIT_MAP] as its [energy_type]; with any other
    [energy_type], or without device data, it carries no unit.  Its
    [native_value], when a number, is the stored [value] of one of the
    buckets of the device data, as stored. *)
Theorem DataSensor_unit_selection `{Utils} hass d system_id sd de_index da_index :
  Coordinator.data (HomeAssistant.daily_data_coordinator hass) = Some d →
  dict_get d system_id = Some sd →
  ∃ self,
    (DataSensor.__init__ system_id de_index da_index hass).1 = Ok self
    ∧ (DataSensor._attr_native_unit_of_measurement self = Some ENERGY_WATT_HOUR
       ↔ ∃ dd key,
           DataSensor.device_data system_id de_index da_index
             (HomeAssistant.daily_data_coordinator hass) = Ok (Some dd)
           ∧ DeviceData.energy_type dd = Some key
           ∧ key ∈ ["CONSUMED_ELECTRICAL_ENERGY"; "EARNED_ENVIRONMENT_ENERGY";
                    "HEAT_GENERATED"; "CONSUMED_PRIMARY_ENERGY";
                    "EARNED_SOLAR_ENERGY"]%string)
    ∧ (DataSensor._attr_native_unit_of_measurement self
         ≠ Some ENERGY_WATT_HOUR →
       DataSensor._attr_native_unit_of_measurement self = None)
    ∧ ∀ v,
        DailyEntity.native_value (DataSensor self)
          (HomeAssistant.daily_data_coordinator hass) = Ok (PyFloat v) →
        ∃ dd b,
          DataSensor.device_data system_id de_index da_index
            (HomeAssistant.daily_data_coordinator hass) = Ok (Some dd)
          ∧ b ∈ DeviceData.data dd
          ∧ DeviceDataBucket.value b = Some v.
Proof.
  intros Hdata Hsystem.
  destruct (returns_preserved _ _ _ hass
              (DataSensor_init_returns (coordinators hass) d system_id sd
                 de_index da_index Hdata Hsystem) eq_refl) as [Hinit _].
  eexists. split; [exact Hinit|].
  cbn [DataSensor._attr_native_unit_of_measurement DailyEntity.native_value
       DataSensor.system_id DataSensor.de_index DataSensor.da_index
       coordinators snd].
  set (dc := HomeAssistant.daily_data_coordinator hass) in *.
  unfold unit_at, DataSensor.native_value.
  rewrite (DataSensor_data_bucket_present dc d system_id sd Hdata Hsystem).
  rewrite (DataSensor_device_data_present dc d system_id sd Hdata Hsystem).
  destruct (_ ≫= _) as [dd|]; simpl.
  - destruct (in_DATA_UNIT_MAP (DeviceData.energy_type dd)) eqn:Hin.
    + split; [|split; [done|]].
      * split; [intros _|done].
        apply in_DATA_UNIT_MAP_known in Hin as (key & Hkey & Hknown).
        by exists dd, key.
      * intros v Hv. destruct (last _) as [b|] eqn:Hlast; [|done].
        apply last_elem_of, list_elem_of_filter in Hlast as [_ Hb].
        exists dd, b. unfold mret, Result_ret in Hv.
        destruct (DeviceDataBucket.value b); by simplify_eq/=.
    + split; [|split; [done|]].
      * split; [done|]. intros (dd' & key & [= <-] & Hkey & Hknown).
        assert (in_DATA_UNIT_MAP (DeviceData.energy_type dd) = true)
          by (apply in_DATA_UNIT_MAP_known; eauto).
        congruence.
      * intros v Hv. destruct (last _) as [b|] eqn:Hlast; [|done].
        apply last_elem_of, list_elem_of_filter in Hlast as [_ Hb].
        exists dd, b. unfold mret, Result_ret in Hv.
        destruct (DeviceDataBucket.value b); by simplify_eq/=.
  - split; [|split; [done|done]].
    split; [done|]. by intros (? & ? & ? & _).
Qed.

Lemma DataSensor_unit_selection_sample :
  ∃ self,
    (@DataSensor.__init__ sample_utils "s1" 1 0 (sample_hass None)).1 = Ok self
    ∧ (DataSensor._attr_native_unit_of_measurement self = Some ENERGY_WATT_HOUR
       ↔ ∃ dd key,
           DataSensor.device_data "s1" 1 0 sample_daily = Ok (Some dd)
           ∧ DeviceData.energy_type dd = Some key
           ∧ key ∈ ["CONSUMED_ELECTRICAL_ENERGY"; "EARNED_ENVIRONMENT_ENERGY";
                    "HEAT_GENERATED"; "CONSUMED_PRIMARY_ENERGY";
                    "EARNED_SOLAR_ENERGY"]%string)
    ∧ (DataSensor._attr_native_unit_of_measurement self
         ≠ Some ENERGY_WATT_HOUR →
       DataSensor._attr_native_unit_of_measurement self = None)
    ∧ ∀ v,
        DailyEntity.native_value (DataSensor self) sample_daily
          = Ok (PyFloat v) →
        ∃ dd b,
          DataSensor.device_data "s1" 1 0 sample_daily = Ok (Some dd)
          ∧ b ∈ DeviceData.data dd
          ∧ DeviceDataBucket.value b = Some v.
Proof.
  apply (@DataSensor_unit_selection sample_utils (sample_hass None)
           [("s1"%string, sample_devices)] "s1"%string sample_devices 1 0);
    reflexivity.
Defined.

(** C10. For a cached system id, a [DataSensor] whose [de_index] or
    [da_index] is out of range of the current [devices_data] finds no device
    data, and its [name], [unique_id], [device_info] and [native_value] are
    all [None]; none of them raises. *)
Theorem DataSensor_out_of_range `{Utils}
    (coordinator : DailyDataCoordinator) d system_id sd de_index da_index :
  Coordinator.data coordinator = Some d →
  dict_get d system_id = Some sd →
  (length (SystemDevices.devices_data sd) ≤ de_index
   ∨ ∃ row, SystemDevices.devices_data sd !! de_index = Some row
            ∧ length row ≤ da_index) →
  DataSensor.device_data system_id de_index da_index coordinator = Ok None
  ∧ DataSensor.name system_id de_index da_index coordinator = Ok PyNone
  ∧ DataSensor.unique_id system_id de_index da_index coordinator = Ok PyNone
  ∧ DataSensor.device_info system_id de_index da_index coordinator = Ok None
  ∧ DataSensor.native_value system_id de_index da_index coordinator = Ok PyNone.
Proof.
  intros Hdata Hsystem Hrange.
  assert (SystemDevices.devices_data sd !! de_index
          ≫= (λ row, row !! da_index) = None) as Hnone.
  { destruct Hrange as [Hde|(row & -> & Hda)]; simpl.
    - by rewrite (lookup_ge_None_2 _ _ Hde).
    - by apply lookup_ge_None_2. }
  unfold DataSensor.name, DataSensor.unique_id, DataSensor.device_info,
    DataSensor.native_value.
  rewrite (DataSensor_device_present coordinator d system_id sd Hdata Hsystem).
  rewrite (DataSensor_data_bucket_present coordinator d system_id sd
             Hdata Hsystem).
  rewrite (DataSensor_device_data_present coordinator d system_id sd
             Hdata Hsystem).
  by rewrite Hnone.
Qed.

Lemma DataSensor_out_of_range_sample :
  DataSensor.device_data "s1" 1 3 sample_daily = Ok None
  ∧ @DataSensor.name sample_utils "s1" 1 3 sample_daily = Ok PyNone
  ∧ @DataSensor.unique_id sample_utils "s1" 1 3 sample_daily = Ok PyNone
  ∧ @DataSensor.device_info sample_utils "s1" 1 3 sample_daily = Ok None
  ∧ DataSensor.native_value "s1" 1 3 sample_daily = Ok PyNone.
Proof.
  apply (@DataSensor_out_of_range sample_utils sample_daily
           [("s1"%string, sample_devices)] "s1"%string sample_devices 1 3);
    [reflexivity|reflexivity|].
  right. eexists. split; [reflexivity|]. simpl. lia.
Defined.

(** ** EfficiencySensor *)

(** A float above zero is not a zero. *)
Lemma positive_float_nonzero (x : float) :
  (0 <? x)%float = true → (x =? 0)%float = false.
Proof.
  rewrite FloatAxioms.ltb_spec, FloatAxioms.eqb_spec. unfold SFltb, SFeqb.
  replace (Prim2SF 0) with (S754_zero false) by reflexivity.
  destruct (Prim2SF x) as [s|s| |s m e]; simpl; try done; by destruct s.
Qed.

Lemma truediv_positive (a b : float) :
  (0 <? b)%float = true → truediv a b = Ok (a / b)%float.
Proof. intros Hb. unfold truediv. by rewrite (positive_float_nonzero _ Hb). Qed.

(** C9. [native_value] of an [EfficiencySensor] is the generated heat
    divided by the consumed energy, rounded to one decimal, when the consumed
    energy is above zero, and [None] otherwise; in no coordinator state does
    it raise [ZeroDivisionError]. *)
Theorem EfficiencySensor_native_value_guarded
    (coordinator : DailyDataCoordinator) system_id de_index :
  EfficiencySensor.native_value system_id de_index coordinator
  = (consumed ← EfficiencySensor.energy_consumed system_id de_index coordinator;
     generated ←
       EfficiencySensor.heat_energy_generated system_id de_index coordinator;
     mret (if (0 <? consumed)%float
           then PyFloat (round (generated / consumed) 1)
           else PyNone))
  ∧ EfficiencySensor.native_value system_id de_index coordinator
    ≠ Raise ZeroDivisionError.
Proof.
  assert (EfficiencySensor.native_value system_id de_index coordinator
    = (consumed ←
         EfficiencySensor.energy_consumed system_id de_index coordinator;
       generated ←
         EfficiencySensor.heat_energy_generated system_id de_index coordinator;
       mret (if (0 <? consumed)%float
             then PyFloat (round (generated / consumed) 1)
             else PyNone))) as Heq.
  { unfold EfficiencySensor.native_value, EfficiencySensor.energy_consumed,
      EfficiencySensor.heat_energy_generated.
    destruct (EfficiencySensor.device_data_list _ _ _) as [l|e]; [|done].
    simpl. destruct (0 <? _)%float eqn:Hpos; [|done].
    by rewrite (truediv_positive _ _ Hpos). }
  split; [done|]. rewrite Heq.
  unfold EfficiencySensor.energy_consumed,
    EfficiencySensor.heat_energy_generated,
    EfficiencySensor.device_data_list, subscriptable, dict_getitem,
    list_getitem.
  repeat (case_match; simpl; try done).
Qed.

(** ** Reading without writing *)

Lemma preserves_leaves_data {A} (m : M A) : preserves m → leaves_data m.
Proof.
  intros Hm hass. specialize (Hm hass). unfold coordinators in Hm.
  by injection Hm as -> ->.
Qed.

(** C6. The two factories and every property accessor of every sensor leave
    the cached data of both coordinators as it was, from every state of the
    instance and whether they return or raise. *)
Theorem platform_leaves_data `{Utils} :
  leaves_data create_system_sensors
  ∧ leaves_data create_daily_data_sensors
  ∧ (∀ e : SystemEntity,
       leaves_data (read_system (SystemEntity.name e))
       ∧ leaves_data (read_system (SystemEntity.unique_id e))
       ∧ leaves_data (read_system (SystemEntity.native_value e))
       ∧ leaves_data (read_system (SystemEntity.device_info e))
       ∧ leaves_data (read_system (SystemEntity.extra_state_attributes e)))
  ∧ (∀ e : DailyEntity,
       leaves_data (read_daily (DailyEntity.name e))
       ∧ leaves_data (read_daily (DailyEntity.unique_id e))
       ∧ leaves_data (read_daily (DailyEntity.native_value e))
       ∧ leaves_data (read_daily (DailyEntity.device_info e))).
Proof.
  repeat split; apply preserves_leaves_data;
    auto using create_system_sensors_preserves,
      create_daily_data_sensors_preserves, read_system_preserves,
      read_daily_preserves.
Qed.

(** ** The sensors of one device, zone, circuit or hot-water unit *)

Lemma filter_iff_elem_of {A} (P Q : A → Prop) `{!∀ y, Decision (P y)}
    `{!∀ y, Decision (Q y)} (l : list A) :
  (∀ y, y ∈ l → (P y ↔ Q y)) → filter P l = filter Q l.
Proof.
  induction l as [|y l IH]; intros HPQ; [done|].
  assert (P y ↔ Q y) as Hy by (apply HPQ; left).
  assert (filter P l = filter Q l) as Hl
    by (apply IH; intros z Hz; apply HPQ; by right).
  rewrite !filter_cons, Hl.
  destruct (decide (P y)), (decide (Q y)); tauto.
Qed.

Lemma sensors_on_system_sensors coordinator l index system s inner :
  Coordinator.data coordinator = Some l →
  l !! index = Some system →
  sensors_on s index inner (system_sensors coordinator)
  = filter (λ e, subject e = s ∧ inner_index e = inner)
      (sensors_of_system (index, system)).
Proof.
  intros Hdata Hindex. unfold sensors_on.
  rewrite <- (system_sensors_owned _ _ _ _ Hdata Hindex).
  rewrite list_filter_filter. apply list_filter_iff. tauto.
Qed.

(** A sensor met in a list given by cases does not report on [s]. *)
Ltac other_subject :=
  let y := fresh "y" in
  let Hy := fresh "Hy" in
  let Hs := fresh "Hs" in
  apply filter_none; intros y Hy [Hs _]; by elem_cases.

(** A sensor met in the list of one object has that object's index. *)
Ltac same_subject :=
  let y := fresh "y" in
  let Hy := fresh "Hy" in
  let x := fresh "x" in
  intros x y _ Hy; elem_cases; cbn [subject inner_index fst snd];
  intuition congruence.

Section one_system.
Context (index : nat) (system : System.t).

Lemma system_level_of_system :
  filter (λ e, subject e = TheSystem ∧ inner_index e = None)
    (sensors_of_system (index, system))
  = system_level_sensors index system.
Proof.
  unfold sensors_of_system. cbn [fst snd]. rewrite !filter_app.
  rewrite (filter_all _ (system_level_sensors _ _)).
  - rewrite !(filter_none _ (_ ≫= _)); [by rewrite ?app_nil_r|..];
      unfold device_sensors, zone_sensors, circuit_sensors, dhw_sensors;
      intros y Hy [Hs _]; by elem_cases.
  - unfold system_level_sensors. intros y Hy. by elem_cases.
Qed.

Lemma device_sensors_of_system j device :
  System.devices system !! j = Some device →
  filter (λ e, subject e = ADevice ∧ inner_index e = Some j)
    (sensors_of_system (index, system))
  = device_sensors index (j, device).
Proof.
  intros Hj. unfold sensors_of_system. cbn [fst snd]. rewrite !filter_app.
  rewrite (filter_bind_select _ fst j (device_sensors index) _ (j, device)).
  - rewrite filter_none, !(filter_none _ (_ ≫= _)); [by rewrite ?app_nil_r|..];
      unfold system_level_sensors, zone_sensors, circuit_sensors, dhw_sensors;
      intros y Hy [Hs _]; by elem_cases.
  - apply NoDup_enumerate.
  - by apply elem_of_enumerate.
  - done.
  - unfold device_sensors. same_subject.
Qed.

Lemma zone_sensors_of_system j zone :
  System.zones system !! j = Some zone →
  filter (λ e, subject e = AZone ∧ inner_index e = Some j)
    (sensors_of_system (index, system))
  = zone_sensors index (j, zone).
Proof.
  intros Hj. unfold sensors_of_system. cbn [fst snd]. rewrite !filter_app.
  rewrite (filter_bind_select _ fst j (zone_sensors index) _ (j, zone)).
  - rewrite filter_none, !(filter_none _ (_ ≫= _)); [by rewrite ?app_nil_r|..];
      unfold system_level_sensors, device_sensors, circuit_sensors, dhw_sensors;
      intros y Hy [Hs _]; by elem_cases.
  - apply NoDup_enumerate.
  - by apply elem_of_enumerate.
  - done.
  - unfold zone_sensors. same_subject.
Qed.

Lemma circuit_sensors_of_system j circuit :
  System.circuits system !! j = Some circuit →
  filter (λ e, subject e = ACircuit ∧ inner_index e = Some j)
    (sensors_of_system (index, system))
  = circuit_sensors index (j, circuit).
Proof.
  intros Hj. unfold sensors_of_system. cbn [fst snd]. rewrite !filter_app.
  rewrite (filter_bind_select _ fst j (circuit_sensors index) _ (j, circuit)).
  - rewrite filter_none, !(filter_none _ (_ ≫= _)); [by rewrite ?app_nil_r|..];
      unfold system_level_sensors, device_sensors, zone_sensors, dhw_sensors;
      intros y Hy [Hs _]; by elem_cases.
  - apply NoDup_enumerate.
  - by apply elem_of_enumerate.
  - done.
  - unfold circuit_sensors. same_subject.
Qed.

Lemma dhw_sensors_of_system j dhw :
  System.domestic_hot_water system !! j = Some dhw →
  filter (λ e, subject e = AHotWaterUnit ∧ inner_index e = Some j)
    (sensors_of_system (index, system))
  = dhw_sensors index (j, dhw).
Proof.
  intros Hj. unfold sensors_of_system. cbn [fst snd]. rewrite !filter_app.
  rewrite (filter_bind_select _ fst j (dhw_sensors index) _ (j, dhw)).
  - rewrite filter_none, !(filter_none _ (_ ≫= _)); [by rewrite ?app_nil_r|..];
      unfold system_level_sensors, device_sensors, zone_sensors,
        circuit_sensors;
      intros y Hy [Hs _]; by elem_cases.
  - apply NoDup_enumerate.
  - by apply elem_of_enumerate.
  - done.
  - unfold dhw_sensors. same_subject.
Qed.
End one_system.

(** X1. For the device cached at [j] of the system at [index],
    [create_system_sensors] builds one [SystemDeviceWaterPressureSensor] when
    the device's operational data has a ["water_pressure"] entry, and nothing
    for the device otherwise. *)
Theorem create_system_sensors_per_device hass l index system j device :
  Coordinator.data (HomeAssistant.system_coordinator hass) = Some l →
  l !! index = Some system →
  System.devices system !! j = Some device →
  ∃ sensors,
    (create_system_sensors hass).1 = Ok sensors
    ∧ sensors_on ADevice index (Some j) sensors
      = match Device.operational_data device !! "water_pressure"%string with
        | Some _ => [SystemDeviceWaterPressureSensor index j]
        | None => []
        end.
Proof.
  intros Hdata Hindex Hj. eexists. split; [apply create_system_sensors_result|].
  rewrite (sensors_on_system_sensors _ _ _ _ _ _ Hdata Hindex).
  rewrite (device_sensors_of_system _ _ _ _ Hj).
  unfold device_sensors. cbn [fst snd].
  destruct (Device.operational_data device !! _) eqn:Hwp.
  - rewrite bool_decide_eq_true_2; [done|by eexists].
  - rewrite bool_decide_eq_false_2; [done|]. by intros [? ?].
Qed.

Lemma create_system_sensors_per_device_sample :
  ∃ sensors,
    (create_system_sensors sample_house_hass).1 = Ok sensors
    ∧ sensors_on ADevice 0 (Some 1) sensors
      = match Device.operational_data sample_pump !! "water_pressure"%string
        with
        | Some _ => [SystemDeviceWaterPressureSensor 0 1]
        | None => []
        end.
Proof.
  apply (create_system_sensors_per_device sample_house_hass [sample_house] 0
           sample_house 1 sample_pump); reflexivity.
Defined.

(** X2. For the zone cached at [j] of the system at [index],
    [create_system_sensors] builds, in this order: the desired-temperature
    sensor; the current-temperature sensor if [current_room_temperature] is
    not [None]; the humidity sensor if [current_room_humidity] is not [None];
    the operating-mode, heating-state and special-function sensors.  Nothing
    else in the list carries these indices. *)
Theorem create_system_sensors_per_zone hass l index system j zone :
  Coordinator.data (HomeAssistant.system_coordinator hass) = Some l →
  l !! index = Some system →
  System.zones system !! j = Some zone →
  ∃ sensors,
    (create_system_sensors hass).1 = Ok sensors
    ∧ sensors_on AZone index (Some j) sensors
      = [ZoneDesiredRoomTemperatureSetpointSensor index j]
        ++ match Zone.current_room_temperature zone with
           | Some _ => [ZoneCurrentRoomTemperatureSensor index j]
           | None => []
           end
        ++ match Zone.current_room_humidity zone with
           | Some _ => [ZoneHumiditySensor index j]
           | None => []
           end
        ++ [ZoneHeatingOperatingModeSensor index j;
            ZoneHeatingStateSensor index j;
            ZoneCurrentSpecialFunctionSensor index j].
Proof.
  intros Hdata Hindex Hj. eexists. split; [apply create_system_sensors_result|].
  rewrite (sensors_on_system_sensors _ _ _ _ _ _ Hdata Hindex).
  rewrite (zone_sensors_of_system _ _ _ _ Hj).
  unfold zone_sensors. cbn [fst snd].
  by destruct (Zone.current_room_temperature zone),
    (Zone.current_room_humidity zone).
Qed.

Lemma create_system_sensors_per_zone_sample :
  ∃ sensors,
    (create_system_sensors sample_house_hass).1 = Ok sensors
    ∧ sensors_on AZone 0 (Some 0) sensors
      = [ZoneDesiredRoomTemperatureSetpointSensor 0 0]
        ++ match Zone.current_room_temperature sample_zone with
           | Some _ => [ZoneCurrentRoomTemperatureSensor 0 0]
           | None => []
           end
        ++ match Zone.current_room_humidity sample_zone with
           | Some _ => [ZoneHumiditySensor 0 0]
           | None => []
           end
        ++ [ZoneHeatingOperatingModeSensor 0 0;
            ZoneHeatingStateSensor 0 0;
            ZoneCurrentSpecialFunctionSensor 0 0].
Proof.
  apply (create_system_sensors_per_zone sample_house_hass [sample_house] 0
           sample_house 0 sample_zone); reflexivity.
Defined.

(** X3. For the circuit cached at [j] of the system at [index],
    [create_system_sensors] builds, in this order: the state sensor; the
    flow-temperature sensor if [current_circuit_flow_temperature] is not
    [None]; the heating-curve sensor if [heating_curve] is not [None]; the
    minimum-flow-setpoint sensor if [min_flow_temperature_setpoint] is not
    [None].  Nothing else in the list carries these indices. *)
Theorem create_system_sensors_per_circuit hass l index system j circuit :
  Coordinator.data (HomeAssistant.system_coordinator hass) = Some l →
  l !! index = Some system →
  System.circuits system !! j = Some circuit →
  ∃ sensors,
    (create_system_sensors hass).1 = Ok sensors
    ∧ sensors_on ACircuit index (Some j) sensors
      = [CircuitStateSensor index j]
        ++ match Circuit.current_circuit_flow_temperature circuit with
           | Some _ => [CircuitFlowTemperatureSensor index j]
           | None => []
           end
        ++ match Circuit.heating_curve circuit with
           | Some _ => [CircuitHeatingCurveSensor index j]
           | None => []
           end
        ++ match Circuit.min_flow_temperature_setpoint circuit with
           | Some _ => [CircuitMinFlowTemperatureSetpointSensor index j]
           | None => []
           end.
Proof.
  intros Hdata Hindex Hj. eexists. split; [apply create_system_sensors_result|].
  rewrite (sensors_on_system_sensors _ _ _ _ _ _ Hdata Hindex).
  rewrite (circuit_sensors_of_system _ _ _ _ Hj).
  unfold circuit_sensors. cbn [fst snd].
  by destruct (Circuit.current_circuit_flow_temperature circuit),
    (Circuit.heating_curve circuit),
    (Circuit.min_flow_temperature_setpoint circuit).
Qed.

Lemma create_system_sensors_per_circuit_sample :
  ∃ sensors,
    (create_system_sensors sample_house_hass).1 = Ok sensors
    ∧ sensors_on ACircuit 0 (Some 0) sensors
      = [CircuitStateSensor 0 0]
        ++ match Circuit.current_circuit_flow_temperature sample_circuit with
           | Some _ => [CircuitFlowTemperatureSensor 0 0]
           | None => []
           end
        ++ match Circuit.heating_curve sample_circuit with
           | Some _ => [CircuitHeatingCurveSensor 0 0]
           | None => []
           end
        ++ match Circuit.min_flow_temperature_setpoint sample_circuit with
           | Some _ => [CircuitMinFlowTemperatureSetpointSensor 0 0]
           | None => []
           end.
Proof.
  apply (create_system_sensors_per_circuit sample_house_hass [sample_house] 0
           sample_house 0 sample_circuit); reflexivity.
Defined.

(** X4. For the hot-water unit cached at [j] of the system at [index],
    [create_system_sensors] builds, in this order: the tank-temperature
    sensor if [current_dhw_temperature] is truthy (present and not zero); the
    setpoint, operation-mode and special-function sensors, each once and
    whatever the unit reports. *)
Theorem create_system_sensors_per_hot_water_unit hass l index system j dhw :
  Coordinator.data (HomeAssistant.system_coordinator hass) = Some l →
  l !! index = Some system →
  System.domestic_hot_water system !! j = Some dhw →
  ∃ sensors,
    (create_system_sensors hass).1 = Ok sensors
    ∧ sensors_on AHotWaterUnit index (Some j) sensors
      = (if truthy (DomesticHotWater.current_dhw_temperature dhw)
         then [DomesticHotWaterTankTemperatureSensor index j] else [])
        ++ [DomesticHotWaterSetPointSensor index j;
            DomesticHotWaterOperationModeSensor index j;
            DomesticHotWaterCurrentSpecialFunctionSensor index j].
Proof.
  intros Hdata Hindex Hj. eexists. split; [apply create_system_sensors_result|].
  rewrite (sensors_on_system_sensors _ _ _ _ _ _ Hdata Hindex).
  by rewrite (dhw_sensors_of_system _ _ _ _ Hj).
Qed.

Lemma create_system_sensors_per_hot_water_unit_sample :
  ∃ sensors,
    (create_system_sensors sample_house_hass).1 = Ok sensors
    ∧ sensors_on AHotWaterUnit 0 (Some 0) sensors
      = (if truthy (DomesticHotWater.current_dhw_temperature
                      (sample_dhw (Some 45.5%float)))
         then [DomesticHotWaterTankTemperatureSensor 0 0] else [])
        ++ [DomesticHotWaterSetPointSensor 0 0;
            DomesticHotWaterOperationModeSensor 0 0;
            DomesticHotWaterCurrentSpecialFunctionSensor 0 0].
Proof.
  apply (create_system_sensors_per_hot_water_unit sample_house_hass
           [sample_house] 0 sample_house 0 (sample_dhw (Some 45.5%float)));
    reflexivity.
Defined.

(** ** Reading the sensors a factory has just built *)

Create HintDb accessors discriminated.
#[export] Hint Unfold
  SystemSensor.system SystemSensor.device_info
  SystemOutdoorTemperatureSensor.native_value
  SystemOutdoorTemperatureSensor.unique_id SystemOutdoorTemperatureSensor.name
  SystemWaterPressureSensor.native_value SystemWaterPressureSensor.unique_id
  SystemWaterPressureSensor.name
  HomeEntity.system HomeEntity.extra_state_attributes HomeEntity.device_info
  HomeEntity.unique_id HomeEntity.native_value HomeEntity.name
  ZoneEntity.system ZoneEntity.zone ZoneEntity.circuit_name_suffix
  ZoneEntity.device_info ZoneEntity.labelled ZoneEntity.keyed
  ZoneDesiredRoomTemperatureSetpointSensor.name
  ZoneDesiredRoomTemperatureSetpointSensor.native_value
  ZoneDesiredRoomTemperatureSetpointSensor.unique_id
  ZoneCurrentRoomTemperatureSensor.name
  ZoneCurrentRoomTemperatureSensor.native_value
  ZoneCurrentRoomTemperatureSensor.unique_id
  ZoneHumiditySensor.name ZoneHumiditySensor.native_value
  ZoneHumiditySensor.unique_id
  ZoneHeatingOperatingModeSensor.name
  ZoneHeatingOperatingModeSensor.native_value
  ZoneHeatingOperatingModeSensor.unique_id
  ZoneHeatingStateSensor.name ZoneHeatingStateSensor.native_value
  ZoneHeatingStateSensor.unique_id
  ZoneCurrentSpecialFunctionSensor.name
  ZoneCurrentSpecialFunctionSensor.native_value
  ZoneCurrentSpecialFunctionSensor.unique_id
  CircuitSensor.system CircuitSensor.circuit CircuitSensor.device_info
  CircuitSensor.labelled CircuitSensor.keyed
  CircuitFlowTemperatureSensor.name CircuitFlowTemperatureSensor.native_value
  CircuitFlowTemperatureSensor.unique_id
  CircuitStateSensor.name CircuitStateSensor.native_value
  CircuitStateSensor.extra_state_attributes CircuitStateSensor.unique_id
  CircuitMinFlowTemperatureSetpointSensor.name
  CircuitMinFlowTemperatureSetpointSensor.native_value
  CircuitMinFlowTemperatureSetpointSensor.unique_id
  CircuitHeatingCurveSensor.name CircuitHeatingCurveSensor.native_value
  CircuitHeatingCurveSensor.unique_id
  DomesticHotWaterSensor.system DomesticHotWaterSensor.domestic_hot_water
  DomesticHotWaterSensor.device_info DomesticHotWaterSensor.labelled
  DomesticHotWaterSensor.keyed
  DomesticHotWaterTankTemperatureSensor.name
  DomesticHotWaterTankTemperatureSensor.native_value
  DomesticHotWaterTankTemperatureSensor.unique_id
  DomesticHotWaterSetPointSensor.name
  DomesticHotWaterSetPointSensor.native_value
  DomesticHotWaterSetPointSensor.unique_id
  DomesticHotWaterOperationModeSensor.name
  DomesticHotWaterOperationModeSensor.native_value
  DomesticHotWaterOperationModeSensor.unique_id
  DomesticHotWaterCurrentSpecialFunctionSensor.name
  DomesticHotWaterCurrentSpecialFunctionSensor.native_value
  DomesticHotWaterCurrentSpecialFunctionSensor.unique_id
  SystemDeviceSensor.system SystemDeviceSensor.device
  SystemDeviceSensor.device_info
  SystemDeviceWaterPressureSensor.name
  SystemDeviceWaterPressureSensor.native_value
  SystemDeviceWaterPressureSensor.unique_id : accessors.

(** Unfold the property of a sensor down to the subscripts it evaluates. *)
Ltac to_subscripts :=
  cbn [SystemEntity.name SystemEntity.unique_id SystemEntity.native_value
       SystemEntity.device_info SystemEntity.extra_state_attributes];
  autounfold with accessors; unfold subscriptable.

Lemma elem_of_system_sensors_inv coordinator e :
  e ∈ system_sensors coordinator →
  ∃ l index system,
    Coordinator.data coordinator = Some l
    ∧ l !! index = Some system
    ∧ e ∈ sensors_of_system (index, system).
Proof.
  unfold system_sensors.
  intros ([index system] & He & Hin%elem_of_enumerate)%list_elem_of_bind.
  destruct (Coordinator.data coordinator) as [l|] eqn:Hdata; [|done].
  by exists l, index, system.
Qed.

(** X5. Every sensor [create_system_sensors] returns can be read against the
    coordinator it was built from: its [name], [unique_id], [native_value],
    [device_info] and [extra_state_attributes] all return, none raises. *)
Theorem created_system_sensors_can_be_read `{Utils} hass sensors e :
  (create_system_sensors hass).1 = Ok sensors →
  e ∈ sensors →
  (∃ v, SystemEntity.name e (HomeAssistant.system_coordinator hass) = Ok v)
  ∧ (∃ v, SystemEntity.unique_id e (HomeAssistant.system_coordinator hass)
          = Ok v)
  ∧ (∃ v, SystemEntity.native_value e (HomeAssistant.system_coordinator hass)
          = Ok v)
  ∧ (∃ v, SystemEntity.device_info e (HomeAssistant.system_coordinator hass)
          = Ok v)
  ∧ (∃ v, SystemEntity.extra_state_attributes e
            (HomeAssistant.system_coordinator hass) = Ok v).
Proof.
  rewrite create_system_sensors_result. intros [= <-] He.
  apply elem_of_system_sensors_inv in He
    as (l & index & system & Hdata & Hindex & He).
  unfold sensors_of_system, system_level_sensors, device_sensors,
    zone_sensors, circuit_sensors, dhw_sensors in He.
  elem_cases;
    repeat match goal with
    | Hx : ?x ∈ enumerate _ |- _ =>
        destruct x; apply elem_of_enumerate in Hx
    end;
    cbn [fst snd] in *; to_subscripts; rewrite Hdata; simpl;
    rewrite (list_getitem_lookup _ _ _ Hindex); simpl;
    repeat match goal with
    | Hx : _ !! _ = Some _ |- _ =>
        rewrite (list_getitem_lookup _ _ _ Hx); simpl
    end;
    repeat split; repeat case_match; by eexists.
Qed.

Lemma created_system_sensors_can_be_read_sample :
  let c := HomeAssistant.system_coordinator sample_house_hass in
  let e := ZoneCurrentRoomTemperatureSensor 0 0 in
  (∃ v, @SystemEntity.name sample_utils e c = Ok v)
  ∧ (∃ v, @SystemEntity.unique_id sample_utils e c = Ok v)
  ∧ (∃ v, SystemEntity.native_value e c = Ok v)
  ∧ (∃ v, @SystemEntity.device_info sample_utils e c = Ok v)
  ∧ (∃ v, SystemEntity.extra_state_attributes e c = Ok v).
Proof.
  apply (@created_system_sensors_can_be_read sample_utils sample_house_hass
           (system_sensors (HomeAssistant.system_coordinator sample_house_hass))
           (ZoneCurrentRoomTemperatureSensor 0 0)).
  - vm_compute. reflexivity.
  - vm_compute. do 5 right; left.
Defined.

Section daily_reads.
Context `{Utils}.
Context (coordinator : DailyDataCoordinator) (d : dict SystemDevices.t).
Context (system_id : string) (sd : SystemDevices.t).
Hypothesis Hdata : Coordinator.data coordinator = Some d.
Hypothesis Hsystem : dict_get d system_id = Some sd.

Lemma EfficiencySensor_device_data_list_present de_index :
  EfficiencySensor.device_data_list system_id de_index coordinator
  = match de_index with
    | None => Ok (concat (SystemDevices.devices_data sd))
    | Some i => list_getitem (SystemDevices.devices_data sd) i
    end.
Proof.
  unfold EfficiencySensor.device_data_list.
  rewrite (daily_subscript coordinator d system_id sd Hdata Hsystem).
  by destruct de_index.
Qed.

Lemma EfficiencySensor_home_name_present :
  EfficiencySensor.home_name system_id coordinator
  = Ok (SystemDevices.home_name sd).
Proof.
  unfold EfficiencySensor.home_name.
  by rewrite (daily_subscript coordinator d system_id sd Hdata Hsystem).
Qed.

(** Once its device data list is found, an efficiency sensor can be read. *)
Lemma EfficiencySensor_reads de_index l :
  EfficiencySensor.device_data_list system_id de_index coordinator = Ok l →
  (∃ v, EfficiencySensor.name system_id de_index coordinator = Ok v)
  ∧ (∃ v, EfficiencySensor.unique_id system_id de_index coordinator = Ok v)
  ∧ (∃ v, EfficiencySensor.native_value system_id de_index coordinator = Ok v)
  ∧ (∃ v, EfficiencySensor.device_info system_id de_index coordinator = Ok v).
Proof.
  intros Hl.
  unfold EfficiencySensor.name, EfficiencySensor.unique_id,
    EfficiencySensor.native_value, EfficiencySensor.device_info,
    EfficiencySensor.energy_consumed, EfficiencySensor.heat_energy_generated.
  rewrite Hl, EfficiencySensor_home_name_present. simpl.
  repeat split.
  - repeat case_match; by eexists.
  - repeat case_match; by eexists.
  - destruct (0 <? _)%float eqn:Hpos; [|by eexists].
    rewrite (truediv_positive _ _ Hpos). by eexists.
  - repeat case_match; by eexists.
Qed.

Lemma DataSensor_device_info_returns de_index da_index :
  ∃ v, DataSensor.device_info system_id de_index da_index coordinator = Ok v.
Proof.
  unfold DataSensor.device_info.
  rewrite (DataSensor_device_present coordinator d system_id sd Hdata Hsystem).
  rewrite (DataSensor_home_name_present coordinator d system_id sd
             Hdata Hsystem).
  simpl. case_match; by eexists.
Qed.
End daily_reads.

(** X6. Every sensor [create_daily_data_sensors] returns can be read against
    the coordinator it was built from: its [name], [unique_id],
    [native_value] and [device_info] all return, none raises. *)
Theorem created_daily_sensors_can_be_read `{Utils} hass sensors e :
  NoDup (dict_keys
           (default [] (Coordinator.data
                          (HomeAssistant.daily_data_coordinator hass)))) →
  (create_daily_data_sensors hass).1 = Ok sensors →
  e ∈ sensors →
  (∃ v, DailyEntity.name e (HomeAssistant.daily_data_coordinator hass) = Ok v)
  ∧ (∃ v, DailyEntity.unique_id e (HomeAssistant.daily_data_coordinator hass)
          = Ok v)
  ∧ (∃ v, DailyEntity.native_value e
            (HomeAssistant.daily_data_coordinator hass) = Ok v)
  ∧ (∃ v, DailyEntity.device_info e
            (HomeAssistant.daily_data_coordinator hass) = Ok v).
Proof.
  intros Hkeys. rewrite (create_daily_data_sensors_result _ Hkeys).
  intros [= <-] He. set (dc := HomeAssistant.daily_data_coordinator hass) in *.
  unfold daily_sensors in He.
  apply list_elem_of_bind in He as ([system_id sd] & He & Hitem).
  destruct (Coordinator.data dc) as [d|] eqn:Hdata;
    [|by apply elem_of_nil in Hitem].
  simpl in Hkeys, Hitem.
  pose proof (dict_get_elem_of _ _ _ Hkeys Hitem) as Hsystem.
  unfold sensors_of_daily_system in He. cbn [fst snd] in He.
  apply elem_of_cons in He as [->|He].
  { apply (EfficiencySensor_reads dc d system_id sd Hdata Hsystem None
             (concat (SystemDevices.devices_data sd))).
    apply (EfficiencySensor_device_data_list_present dc d system_id sd
             Hdata Hsystem None). }
  apply list_elem_of_bind in He
    as ([de_index row] & He & Hrow%elem_of_enumerate).
  unfold device_level_sensors in He. cbn [fst snd] in He.
  case_bool_decide; [by apply elem_of_nil in He|].
  apply elem_of_cons in He as [->|He].
  { apply (EfficiencySensor_reads dc d system_id sd Hdata Hsystem
             (Some de_index) row).
    rewrite (EfficiencySensor_device_data_list_present dc d system_id sd
               Hdata Hsystem (Some de_index)).
    by apply list_getitem_lookup. }
  apply list_elem_of_bind in He as ([da_index x] & He & _).
  unfold data_sensor in He. apply list_elem_of_singleton in He as ->.
  cbn [DailyEntity.name DailyEntity.unique_id DailyEntity.native_value
       DailyEntity.device_info DataSensor.system_id DataSensor.de_index
       DataSensor.da_index fst snd].
  repeat split.
  - by apply (DataSensor_name_returns dc d system_id sd).
  - by apply (DataSensor_unique_id_returns dc d system_id sd).
  - by apply (DataSensor_native_value_returns dc d system_id sd).
  - by apply (DataSensor_device_info_returns dc d system_id sd).
Qed.

Lemma created_daily_sensors_can_be_read_sample :
  let e := EfficiencySensor "s1" (Some 1) in
  (∃ v, @DailyEntity.name sample_utils e sample_daily = Ok v)
  ∧ (∃ v, @DailyEntity.unique_id sample_utils e sample_daily = Ok v)
  ∧ (∃ v, DailyEntity.native_value e sample_daily = Ok v)
  ∧ (∃ v, @DailyEntity.device_info sample_utils e sample_daily = Ok v).
Proof.
  apply (@created_daily_sensors_can_be_read sample_utils (sample_hass None)
           (daily_sensors sample_daily) (EfficiencySensor "s1" (Some 1))).
  - apply NoDup_singleton.
  - vm_compute. reflexivity.
  - vm_compute. right; left.
Defined.

(** ** What the properties raise *)

(** X7. A per-device [EfficiencySensor] has no bounds check: when its
    [de_index] is out of range of the cached [devices_data] of its system,
    [device_data_list] and with it [name], [unique_id], [native_value] and
    [device_info] raise [IndexError]. *)
Theorem EfficiencySensor_out_of_range `{Utils}
    (coordinator : DailyDataCoordinator) d system_id sd de_index :
  Coordinator.data coordinator = Some d →
  dict_get d system_id = Some sd →
  length (SystemDevices.devices_data sd) ≤ de_index →
  EfficiencySensor.device_data_list system_id (Some de_index) coordinator
  = Raise IndexError
  ∧ EfficiencySensor.name system_id (Some de_index) coordinator
    = Raise IndexError
  ∧ EfficiencySensor.unique_id system_id (Some de_index) coordinator
    = Raise IndexError
  ∧ EfficiencySensor.native_value system_id (Some de_index) coordinator
    = Raise IndexError
  ∧ EfficiencySensor.device_info system_id (Some de_index) coordinator
    = Raise IndexError.
Proof.
  intros Hdata Hsystem Hrange.
  assert (EfficiencySensor.device_data_list system_id (Some de_index)
            coordinator = Raise IndexError) as Hlist.
  { rewrite (EfficiencySensor_device_data_list_present coordinator d
               system_id sd Hdata Hsystem).
    unfold list_getitem. by rewrite (lookup_ge_None_2 _ _ Hrange). }
  unfold EfficiencySensor.name, EfficiencySensor.unique_id,
    EfficiencySensor.native_value, EfficiencySensor.device_info,
    EfficiencySensor.energy_consumed.
  by rewrite Hlist.
Qed.

Lemma EfficiencySensor_out_of_range_sample :
  EfficiencySensor.device_data_list "s1" (Some 2) sample_daily
  = Raise IndexError
  ∧ @EfficiencySensor.name sample_utils "s1" (Some 2) sample_daily
    = Raise IndexError
  ∧ @EfficiencySensor.unique_id sample_utils "s1" (Some 2) sample_daily
    = Raise IndexError
  ∧ EfficiencySensor.native_value "s1" (Some 2) sample_daily
    = Raise IndexError
  ∧ @EfficiencySensor.device_info sample_utils "s1" (Some 2) sample_daily
    = Raise IndexError.
Proof.
  apply (@EfficiencySensor_out_of_range sample_utils sample_daily
           [("s1"%string, sample_devices)] "s1"%string sample_devices 2);
    [reflexivity|reflexivity|simpl; lia].
Defined.

(** X8. A daily-data sensor whose system id is no longer among the keys of
    the cached data raises [KeyError] from each of [name], [unique_id],
    [native_value] and [device_info]; and the [DataSensor] constructor
    raises [KeyError] for such an id before it logs anything. *)
Theorem daily_sensor_without_system `{Utils} hass d e de_index da_index :
  Coordinator.data (HomeAssistant.daily_data_coordinator hass) = Some d →
  dict_get d (daily_system_id e) = None →
  DailyEntity.name e (HomeAssistant.daily_data_coordinator hass)
  = Raise KeyError
  ∧ DailyEntity.unique_id e (HomeAssistant.daily_data_coordinator hass)
    = Raise KeyError
  ∧ DailyEntity.native_value e (HomeAssistant.daily_data_coordinator hass)
    = Raise KeyError
  ∧ DailyEntity.device_info e (HomeAssistant.daily_data_coordinator hass)
    = Raise KeyError
  ∧ DataSensor.__init__ (daily_system_id e) de_index da_index hass
    = (Raise KeyError, hass).
Proof.
  intros Hdata Hsystem.
  set (dc := HomeAssistant.daily_data_coordinator hass) in *.
  assert (∀ de da, DataSensor.device_data (daily_system_id e) de da dc
                   = Raise KeyError) as Hdd.
  { intros de da. unfold DataSensor.device_data, subscriptable, dict_getitem.
    rewrite Hdata. simpl. by rewrite Hsystem. }
  assert (∀ de, EfficiencySensor.device_data_list (daily_system_id e) de dc
                = Raise KeyError) as Hlist.
  { intros de. unfold EfficiencySensor.device_data_list, subscriptable,
      dict_getitem.
    rewrite Hdata. simpl. by rewrite Hsystem. }
  split; [|split; [|split; [|split]]].
  1-4: destruct e as [[system_id de da unit]|system_id de];
    cbn [DailyEntity.name DailyEntity.unique_id DailyEntity.native_value
         DailyEntity.device_info DataSensor.system_id DataSensor.de_index
         DataSensor.da_index daily_system_id] in *;
    unfold DataSensor.name, DataSensor.unique_id, DataSensor.native_value,
      DataSensor.device_info, DataSensor.data_bucket, DataSensor.device,
      EfficiencySensor.name, EfficiencySensor.unique_id,
      EfficiencySensor.native_value, EfficiencySensor.device_info,
      EfficiencySensor.energy_consumed;
    by rewrite ?Hdd, ?Hlist.
  - unfold DataSensor.__init__, get_daily_data_coordinator, lift, mbind,
      M_bind. fold dc. by rewrite Hdd.
Qed.

Lemma daily_sensor_without_system_sample :
  let e := EfficiencySensor "s2" None in
  @DailyEntity.name sample_utils e sample_daily = Raise KeyError
  ∧ @DailyEntity.unique_id sample_utils e sample_daily = Raise KeyError
  ∧ DailyEntity.native_value e sample_daily = Raise KeyError
  ∧ @DailyEntity.device_info sample_utils e sample_daily = Raise KeyError
  ∧ @DataSensor.__init__ sample_utils "s2" 0 0 (sample_hass None)
    = (Raise KeyError, sample_hass None).
Proof.
  apply (@daily_sensor_without_system sample_utils (sample_hass None)
           [("s1"%string, sample_devices)] (EfficiencySensor "s2" None) 0 0);
    reflexivity.
Defined.

(** X9. Before the first refresh, when a coordinator's data is [None],
    [name], [unique_id], [native_value] and [device_info] of every sensor
    bound to it raise [TypeError]. *)
Theorem sensors_without_data `{Utils} (e : SystemEntity) (e' : DailyEntity)
    (sc : SystemCoordinator) (dc : DailyDataCoordinator) :
  Coordinator.data sc = None →
  Coordinator.data dc = None →
  (SystemEntity.name e sc = Raise TypeError
   ∧ SystemEntity.unique_id e sc = Raise TypeError
   ∧ SystemEntity.native_value e sc = Raise TypeError
   ∧ SystemEntity.device_info e sc = Raise TypeError)
  ∧ (DailyEntity.name e' dc = Raise TypeError
     ∧ DailyEntity.unique_id e' dc = Raise TypeError
     ∧ DailyEntity.native_value e' dc = Raise TypeError
     ∧ DailyEntity.device_info e' dc = Raise TypeError).
Proof.
  intros Hsc Hdc. split.
  - destruct e; to_subscripts; rewrite Hsc; done.
  - destruct e' as [[system_id de da unit]|system_id de];
      cbn [DailyEntity.name DailyEntity.unique_id DailyEntity.native_value
           DailyEntity.device_info DataSensor.system_id DataSensor.de_index
           DataSensor.da_index];
      unfold DataSensor.name, DataSensor.unique_id, DataSensor.native_value,
        DataSensor.device_info, DataSensor.data_bucket, DataSensor.device,
        DataSensor.device_data,
        EfficiencySensor.name, EfficiencySensor.unique_id,
        EfficiencySensor.native_value, EfficiencySensor.device_info,
        EfficiencySensor.energy_consumed, EfficiencySensor.device_data_list,
        subscriptable;
      rewrite Hdc; done.
Qed.

Lemma sensors_without_data_sample :
  let e := HomeEntity 0 in
  let e' := sample_data_sensor None in
  (@SystemEntity.name sample_utils e fresh_coordinator = Raise TypeError
   ∧ @SystemEntity.unique_id sample_utils e fresh_coordinator = Raise TypeError
   ∧ SystemEntity.native_value e fresh_coordinator = Raise TypeError
   ∧ @SystemEntity.device_info sample_utils e fresh_coordinator
     = Raise TypeError)
  ∧ (@DailyEntity.name sample_utils e' fresh_coordinator = Raise TypeError
     ∧ @DailyEntity.unique_id sample_utils e' fresh_coordinator
       = Raise TypeError
     ∧ DailyEntity.native_value e' fresh_coordinator = Raise TypeError
     ∧ @DailyEntity.device_info sample_utils e' fresh_coordinator
       = Raise TypeError).
Proof.
  apply (@sensors_without_data sample_utils (HomeEntity 0)
           (sample_data_sensor None) fresh_coordinator fresh_coordinator);
    reflexivity.
Defined.

(** X10. A sensor whose system index is out of range of the cached list of
    systems raises [IndexError] from each of [name], [unique_id],
    [native_value] and [device_info], whatever its class. *)
Theorem system_sensor_out_of_range `{Utils} (e : SystemEntity)
    (coordinator : SystemCoordinator) l :
  Coordinator.data coordinator = Some l →
  length l ≤ owner e →
  SystemEntity.name e coordinator = Raise IndexError
  ∧ SystemEntity.unique_id e coordinator = Raise IndexError
  ∧ SystemEntity.native_value e coordinator = Raise IndexError
  ∧ SystemEntity.device_info e coordinator = Raise IndexError.
Proof.
  intros Hdata Hrange. apply lookup_ge_None_2 in Hrange.
  destruct e; cbn [owner] in Hrange; to_subscripts; rewrite Hdata; simpl;
    unfold list_getitem; rewrite Hrange; done.
Qed.

Lemma system_sensor_out_of_range_sample :
  let e := CircuitStateSensor 1 0 in
  let c := HomeAssistant.system_coordinator sample_house_hass in
  @SystemEntity.name sample_utils e c = Raise IndexError
  ∧ @SystemEntity.unique_id sample_utils e c = Raise IndexError
  ∧ SystemEntity.native_value e c = Raise IndexError
  ∧ @SystemEntity.device_info sample_utils e c = Raise IndexError.
Proof.
  apply (@system_sensor_out_of_range sample_utils (CircuitStateSensor 1 0)
           (HomeAssistant.system_coordinator sample_house_hass)
           [sample_house]); [reflexivity|simpl; lia].
Defined.

(** X11. When the system of a sensor is cached but its zone, circuit or
    hot-water unit index is out of range, [name], [native_value] and
    [device_info] raise [IndexError] while [unique_id], which reads the
    system only, still returns.  For a device sensor it is the other way
    round: [name], [native_value] and [unique_id] raise [IndexError] and
    [device_info] still returns. *)
Theorem inner_index_out_of_range `{Utils} (e : SystemEntity)
    (coordinator : SystemCoordinator) l system j :
  Coordinator.data coordinator = Some l →
  l !! owner e = Some system →
  inner_index e = Some j →
  subject_length (subject e) system ≤ j →
  SystemEntity.name e coordinator = Raise IndexError
  ∧ SystemEntity.native_value e coordinator = Raise IndexError
  ∧ if decide (subject e = ADevice)
    then SystemEntity.unique_id e coordinator = Raise IndexError
         ∧ ∃ v, SystemEntity.device_info e coordinator = Ok v
    else SystemEntity.device_info e coordinator = Raise IndexError
         ∧ ∃ v, SystemEntity.unique_id e coordinator = Ok v.
Proof.
  intros Hdata Hsystem Hinner Hrange.
  destruct e; cbn [owner inner_index subject subject_length] in *;
    simplify_eq; apply lookup_ge_None_2 in Hrange;
    to_subscripts; rewrite Hdata; simpl;
    rewrite (list_getitem_lookup _ _ _ Hsystem); simpl;
    unfold list_getitem; rewrite Hrange; simpl;
    (split; [done|split; [done|split; [done|by eexists]]]).
Qed.

Lemma inner_index_out_of_range_sample :
  let e := ZoneHumiditySensor 0 3 in
  let c := HomeAssistant.system_coordinator sample_house_hass in
  @SystemEntity.name sample_utils e c = Raise IndexError
  ∧ SystemEntity.native_value e c = Raise IndexError
  ∧ if decide (subject e = ADevice)
    then @SystemEntity.unique_id sample_utils e c = Raise IndexError
         ∧ ∃ v, @SystemEntity.device_info sample_utils e c = Ok v
    else @SystemEntity.device_info sample_utils e c = Raise IndexError
         ∧ ∃ v, @SystemEntity.unique_id sample_utils e c = Ok v.
Proof.
  apply (@inner_index_out_of_range sample_utils (ZoneHumiditySensor 0 3)
           (HomeAssistant.system_coordinator sample_house_hass)
           [sample_house] sample_house 3);
    [reflexivity|reflexivity|reflexivity|simpl; lia].
Defined.

(** ** The value a daily sensor reports *)

Lemma filter_value_None (l : list DeviceDataBucket.t) :
  Forall (λ b, DeviceDataBucket.value b = None) l →
  filter (λ b, DeviceDataBucket.value b ≠ None) l = [].
Proof.
  intros Hnone. apply filter_none. intros b Hb Hvalue.
  apply Hvalue. by apply (proj1 (Forall_forall _ _) Hnone b Hb).
Qed.

(** X12. [native_value] of a [DataSensor] is the value of the latest bucket
    that has one: trailing buckets whose value is [None] are skipped, and when
    no bucket has a value (or there is no bucket) the result is [None]. *)
Theorem DataSensor_native_value_latest
    (coordinator : DailyDataCoordinator) d system_id sd de_index da_index
    row dd :
  Coordinator.data coordinator = Some d →
  dict_get d system_id = Some sd →
  SystemDevices.devices_data sd !! de_index = Some row →
  row !! da_index = Some dd →
  (∀ before b after v,
     DeviceData.data dd = before ++ b :: after →
     DeviceDataBucket.value b = Some v →
     Forall (λ b', DeviceDataBucket.value b' = None) after →
     DataSensor.native_value system_id de_index da_index coordinator
     = Ok (PyFloat v))
  ∧ (Forall (λ b, DeviceDataBucket.value b = None) (DeviceData.data dd) →
     DataSensor.native_value system_id de_index da_index coordinator
     = Ok PyNone).
Proof.
  intros Hdata Hsystem Hrow Hdd. unfold DataSensor.native_value.
  rewrite (DataSensor_data_bucket_present coordinator d system_id sd
             Hdata Hsystem).
  rewrite Hrow. simpl. rewrite Hdd. simpl. split.
  - intros before b after v -> Hv Hafter.
    rewrite filter_app, filter_cons_True by congruence.
    rewrite (filter_value_None _ Hafter).
    rewrite last_snoc. simpl. by rewrite Hv.
  - intros Hnone. by rewrite (filter_value_None _ Hnone).
Qed.

Lemma DataSensor_native_value_latest_sample :
  (∀ before b after v,
     DeviceData.data (sample_data "HEAT_GENERATED" 3250) = before ++ b :: after →
     DeviceDataBucket.value b = Some v →
     Forall (λ b', DeviceDataBucket.value b' = None) after →
     DataSensor.native_value "s1" 1 1 sample_daily = Ok (PyFloat v))
  ∧ (Forall (λ b, DeviceDataBucket.value b = None)
       (DeviceData.data (sample_data "HEAT_GENERATED" 3250)) →
     DataSensor.native_value "s1" 1 1 sample_daily = Ok PyNone).
Proof.
  apply (DataSensor_native_value_latest sample_daily
           [("s1"%string, sample_devices)] "s1"%string sample_devices 1 1
           (default [] (SystemDevices.devices_data sample_devices !! 1))
           (sample_data "HEAT_GENERATED" 3250)); reflexivity.
Defined.

Lemma omap_counted_other energy (l : list DeviceData.t) :
  Forall (λ v, DeviceData.energy_type v ≠ Some energy) l →
  omap (EfficiencySensor.counted energy) l = [].
Proof.
  induction 1 as [|v l Hv _ IH]; [done|].
  assert (EfficiencySensor.counted energy v = None) as Hcounted.
  { unfold EfficiencySensor.counted. destruct (last _); [|done].
    by rewrite (bool_decide_eq_false_2 _ Hv), andb_false_r. }
  cbn -[EfficiencySensor.counted]. by rewrite Hcounted.
Qed.

(** X13. When none of the device data an [EfficiencySensor] looks at is of
    type CONSUMED_ELECTRICAL_ENERGY (in particular when it looks at none),
    the consumed energy is zero and [native_value] is [None], whatever heat
    was generated. *)
Theorem EfficiencySensor_without_consumption
    (coordinator : DailyDataCoordinator) system_id de_index l :
  EfficiencySensor.device_data_list system_id de_index coordinator = Ok l →
  Forall (λ v, DeviceData.energy_type v
               ≠ Some "CONSUMED_ELECTRICAL_ENERGY"%string) l →
  EfficiencySensor.energy_consumed system_id de_index coordinator
  = Ok 0%float
  ∧ EfficiencySensor.native_value system_id de_index coordinator = Ok PyNone.
Proof.
  intros Hl Hother.
  unfold EfficiencySensor.native_value, EfficiencySensor.energy_consumed.
  rewrite Hl. simpl. by rewrite (omap_counted_other _ _ Hother).
Qed.

Lemma EfficiencySensor_without_consumption_sample :
  EfficiencySensor.energy_consumed "s1" (Some 0) sample_daily = Ok 0%float
  ∧ EfficiencySensor.native_value "s1" (Some 0) sample_daily = Ok PyNone.
Proof.
  apply (EfficiencySensor_without_consumption sample_daily "s1" (Some 0) []);
    [reflexivity|constructor].
Defined.

(** ** What the factories log *)

Section logging.
Context (P : LogRecord → Prop).

Lemma logs_ret {A} (a : A) : logs P (mret a : M A).
Proof. intros hass. exists []. by rewrite app_nil_r. Qed.

Lemma logs_lift {A} (r : Result A) : logs P (lift r).
Proof. intros hass. exists []. by rewrite app_nil_r. Qed.

Lemma logs_get_system_coordinator : logs P get_system_coordinator.
Proof. intros hass. exists []. by rewrite app_nil_r. Qed.

Lemma logs_get_daily_data_coordinator : logs P get_daily_data_coordinator.
Proof. intros hass. exists []. by rewrite app_nil_r. Qed.

Lemma logs_emit r : P r → logs P (emit r).
Proof. intros Hr hass. exists [r]. split; [done|]. by constructor. Qed.

Lemma logs_bind {A B} (m : M A) (f : A → M B) :
  logs P m → (∀ a, logs P (f a)) → logs P (m ≫= f).
Proof.
  intros Hm Hf hass. unfold mbind, M_bind.
  destruct (Hm hass) as (records & Hlog & Hrecords).
  destruct (m hass) as [[a|e] hass']; simpl in *.
  - destruct (Hf a hass') as (records' & Hlog' & Hrecords').
    exists (records ++ records'). rewrite Hlog', Hlog, app_assoc.
    split; [done|]. by apply Forall_app.
  - by exists records.
Qed.

Lemma logs_for_each {A B} (l : list A) (body : A → B → M B) :
  (∀ x s, logs P (body x s)) → ∀ s, logs P (for_each l body s).
Proof.
  intros Hbody. induction l as [|x l IH]; intros s; simpl.
  - apply logs_ret.
  - apply logs_bind; [apply Hbody | apply IH].
Qed.
End logging.

(** Peel one statement off a block that logs at DEBUG level only. *)
Ltac debug_step :=
  lazymatch goal with
  | |- logs _ (mbind _ _) => apply logs_bind; [|intros ?]
  | |- logs _ (for_each _ _ _) => apply logs_for_each; intros ? ?
  | |- logs _ (_LOGGER_debug _ _) => by apply logs_emit
  | |- logs _ (let '(_, _) := ?p in _) => destruct p
  | |- logs _ (match ?p with (_, _) => _ end _) => destruct p
  | |- logs _ (if ?b then _ else _) => destruct b
  | |- logs _ (match ?o with Some _ => _ | None => _ end) => destruct o
  | |- logs _ _ =>
      first [ apply logs_ret | apply logs_lift
            | apply logs_get_system_coordinator
            | apply logs_get_daily_data_coordinator ]
  end.

Lemma DataSensor_init_logs_debug `{Utils} system_id de_index da_index :
  logs (λ r, levelno r = DEBUG)
    (DataSensor.__init__ system_id de_index da_index).
Proof. unfold DataSensor.__init__. repeat debug_step. Qed.

(** X14. Without data each factory logs one warning; with data it logs at
    DEBUG level only.  [create_daily_data_sensors] logs
    the cached data at DEBUG level before it looks at it. *)
Theorem factories_warn_without_data `{Utils} hass :
  (∃ records,
     HomeAssistant.log (create_system_sensors hass).2
     = HomeAssistant.log hass ++ records
     ∧ if no_data (Coordinator.data (HomeAssistant.system_coordinator hass))
       then records = [{| levelno := WARNING;
                          msg := "No system data, skipping sensors";
                          args := [] |}]
       else Forall (λ r, levelno r = DEBUG) records)
  ∧ (∃ records,
       HomeAssistant.log (create_daily_data_sensors hass).2
       = HomeAssistant.log hass ++ records
       ∧ if no_data
              (Coordinator.data (HomeAssistant.daily_data_coordinator hass))
         then records
              = [{| levelno := DEBUG;
                    msg := "Daily data: %s";
                    args := [ArgDailyData
                               (Coordinator.data
                                  (HomeAssistant.daily_data_coordinator hass))]
                 |};
                 {| levelno := WARNING;
                    msg := "No daily data, skipping sensors";
                    args := [] |}]
         else Forall (λ r, levelno r = DEBUG) records).
Proof.
  split.
  - unfold create_system_sensors. unfold mbind at 1. unfold M_bind at 1.
    unfold get_system_coordinator. cbv beta iota.
    destruct (no_data _) eqn:Hnone.
    + eexists. split; [|reflexivity]. reflexivity.
    + refine ((_ : logs (λ r, levelno r = DEBUG) _) hass).
      repeat debug_step.
  - unfold create_daily_data_sensors. unfold mbind at 1. unfold M_bind at 1.
    unfold get_daily_data_coordinator. cbv beta iota.
    destruct (no_data _) eqn:Hnone.
    + eexists. split; [|reflexivity]. simpl. by rewrite <- app_assoc.
    + refine ((_ : logs (λ r, levelno r = DEBUG) _) hass).
      repeat debug_step. apply DataSensor_init_logs_debug.
Qed.

(** ** No sensor is built twice *)

Lemma NoDup_enumerate_pairs {A} (l : list A) : NoDup (enumerate l).
Proof. eapply NoDup_fmap_1. apply NoDup_enumerate. Qed.

Lemma enumerate_index_inj {A} (l : list A) (p q : nat * A) :
  p ∈ enumerate l → q ∈ enumerate l → p.1 = q.1 → p = q.
Proof.
  destruct p as [i x], q as [j y].
  intros Hp%elem_of_enumerate Hq%elem_of_enumerate. simpl. intros ->.
  congruence.
Qed.

(** The concatenation of what the enumerated objects contribute has no
    duplicates when each contribution has none and is marked with the index
    of its object. *)
Lemma NoDup_bind_enumerate {A B} (mark : B → option nat)
    (f : nat * A → list B) (l : list A) :
  (∀ p y, y ∈ f p → mark y = Some p.1) →
  (∀ p, NoDup (f p)) →
  NoDup (enumerate l ≫= f).
Proof.
  intros Hmark Hf. apply NoDup_bind.
  - intros p q y Hp Hq Hyp Hyq. apply (enumerate_index_inj l); [done..|].
    apply Hmark in Hyp, Hyq. congruence.
  - intros p _. apply Hf.
  - apply NoDup_enumerate_pairs.
Qed.

(** A list given by cases has no duplicates. *)
Ltac distinct :=
  repeat case_bool_decide; repeat case_match; simpl;
  repeat (apply NoDup_cons; split;
          [rewrite ?elem_of_cons, ?elem_of_nil; intuition congruence|]);
  apply NoDup_nil_2.

Lemma NoDup_sensors_of_system p : NoDup (sensors_of_system p).
Proof.
  unfold sensors_of_system.
  apply NoDup_app; split; [|split]; [| |apply NoDup_app; split; [|split];
    [| |apply NoDup_app; split; [|split];
      [| |apply NoDup_app; split; [|split]]]].
  - unfold system_level_sensors. distinct.
  - intros y Hy Hy'.
    assert (subject y = TheSystem) as Hs
      by (unfold system_level_sensors in Hy; by elem_cases).
    unfold device_sensors, zone_sensors, circuit_sensors, dhw_sensors in Hy'.
    by elem_cases.
  - apply (NoDup_bind_enumerate inner_index).
    + unfold device_sensors. intros q y Hy. by elem_cases.
    + intros q. unfold device_sensors. distinct.
  - intros y Hy Hy'.
    assert (subject y = ADevice) as Hs
      by (unfold device_sensors in Hy; by elem_cases).
    unfold zone_sensors, circuit_sensors, dhw_sensors in Hy'. by elem_cases.
  - apply (NoDup_bind_enumerate inner_index).
    + unfold zone_sensors. intros q y Hy. by elem_cases.
    + intros q. unfold zone_sensors. distinct.
  - intros y Hy Hy'.
    assert (subject y = AZone) as Hs
      by (unfold zone_sensors in Hy; by elem_cases).
    unfold circuit_sensors, dhw_sensors in Hy'. by elem_cases.
  - apply (NoDup_bind_enumerate inner_index).
    + unfold circuit_sensors. intros q y Hy. by elem_cases.
    + intros q. unfold circuit_sensors. distinct.
  - intros y Hy Hy'.
    assert (subject y = ACircuit) as Hs
      by (unfold circuit_sensors in Hy; by elem_cases).
    unfold dhw_sensors in Hy'. by elem_cases.
  - apply (NoDup_bind_enumerate inner_index).
    + unfold dhw_sensors. intros q y Hy. by elem_cases.
    + intros q. unfold dhw_sensors. distinct.
Qed.

(** X15. The list [create_system_sensors] returns has no duplicates: no two
    of its sensors have the same class and the same indices. *)
Theorem created_system_sensors_distinct hass :
  ∃ sensors,
    (create_system_sensors hass).1 = Ok sensors ∧ NoDup sensors.
Proof.
  eexists. split; [apply create_system_sensors_result|].
  unfold system_sensors. apply NoDup_bind.
  - intros p q y Hp Hq Hyp Hyq. apply (enumerate_index_inj _ _ _ Hp Hq).
    apply owner_sensors_of_system in Hyp, Hyq. congruence.
  - intros p _. apply NoDup_sensors_of_system.
  - apply NoDup_enumerate_pairs.
Qed.

Lemma NoDup_sensors_of_daily_system coordinator p :
  NoDup (sensors_of_daily_system coordinator p).
Proof.
  unfold sensors_of_daily_system. apply NoDup_cons. split.
  - intros (q & Hy & _)%list_elem_of_bind.
    by apply daily_indices_of_device_level in Hy as [_ ?].
  - apply (NoDup_bind_enumerate daily_de_index).
    + intros q y Hy. by apply daily_indices_of_device_level in Hy as [_ ?].
    + intros q. unfold device_level_sensors. case_bool_decide; [constructor|].
      apply NoDup_cons. split.
      * unfold data_sensor. intros Hy.
        remember (EfficiencySensor p.1 (Some q.1)) as e. by elem_cases.
      * apply (NoDup_bind_enumerate daily_da_index).
        -- unfold data_sensor. intros r y Hy. by elem_cases.
        -- intros r. apply NoDup_singleton.
Qed.

(** X16. Over a dict with distinct keys, the list
    [create_daily_data_sensors] returns has no duplicates: no two of its
    sensors have the same class, system id and indices. *)
Theorem created_daily_sensors_distinct `{Utils} hass :
  NoDup (dict_keys
           (default [] (Coordinator.data
                          (HomeAssistant.daily_data_coordinator hass)))) →
  ∃ sensors,
    (create_daily_data_sensors hass).1 = Ok sensors ∧ NoDup sensors.
Proof.
  intros Hkeys. eexists. split; [by apply create_daily_data_sensors_result|].
  unfold daily_sensors.
  set (dc := HomeAssistant.daily_data_coordinator hass) in *.
  destruct (Coordinator.data dc) as [d|]; [|constructor]. simpl in *.
  apply NoDup_bind.
  - intros [k v] [k' v'] y Hp Hq Hyp Hyq.
    apply daily_system_id_of_system in Hyp, Hyq. simpl in *. subst k k'.
    apply (dict_get_elem_of _ _ _ Hkeys) in Hp, Hq. congruence.
  - intros p _. apply NoDup_sensors_of_daily_system.
  - by eapply NoDup_fmap_1.
Qed.

Lemma created_daily_sensors_distinct_sample :
  ∃ sensors,
    (@create_daily_data_sensors sample_utils (sample_hass None)).1 = Ok sensors
    ∧ NoDup sensors.
Proof.
  apply (@created_daily_sensors_distinct sample_utils (sample_hass None)).
  apply NoDup_singleton.
Defined.

(** ** Unique ids *)

Lemma to_int_not_nil (z : Z) :
  Z.to_int z ≠ Decimal.Pos Decimal.Nil ∧ Z.to_int z ≠ Decimal.Neg Decimal.Nil.
Proof.
  destruct z as [|p|p]; simpl; split; try discriminate;
    intros [= Hnil]; by apply DecimalPos.Unsigned.to_uint_nonnil in Hnil.
Qed.

Lemma str_of_int_inj (z z' : Z) : str_of_int z = str_of_int z' → z = z'.
Proof.
  unfold str_of_int. intros Heq. apply DecimalZ.to_int_inj.
  destruct (to_int_not_nil z), (to_int_not_nil z').
  apply (f_equal NilZero.int_of_string) in Heq.
  rewrite !NilZero.isi in Heq by done. congruence.
Qed.

Lemma str_of_nat_inj (n m : nat) : str_of_nat n = str_of_nat m → n = m.
Proof. unfold str_of_nat. intros Heq%str_of_int_inj. lia. Qed.

(** X17. Two sensors of one cached system that are not device sensors and
    return the same [unique_id] are the same sensor: among the sensors of the
    system itself, its zones, circuits and hot-water units, unique ids do not
    collide, whatever prefix [get_unique_id_prefix] gives the system. *)
Theorem unique_ids_distinct_within_system `{Utils} (e1 e2 : SystemEntity)
    (coordinator : SystemCoordinator) v :
  owner e1 = owner e2 →
  subject e1 ≠ ADevice →
  subject e2 ≠ ADevice →
  SystemEntity.unique_id e1 coordinator = Ok v →
  SystemEntity.unique_id e2 coordinator = Ok v →
  e1 = e2.
Proof.
  intros Howner Hs1 Hs2.
  destruct e1, e2; cbn [subject owner] in *; try done; subst;
    to_subscripts;
    (destruct (Coordinator.data coordinator) as [l|]; [|done]); simpl;
    (destruct (list_getitem l _) as [s|?]; [|done]); simpl;
    intros [= <-] Heq;
    apply (f_equal (λ r, match r with
                         | Ok (PyStr id) => id
                         | _ => EmptyString
                         end)) in Heq;
    cbv beta iota in Heq; apply (inj _) in Heq;
    repeat match type of Heq with
    | context [str_of_nat ?n] =>
        let x := fresh "x" in
        let Hx := fresh "Hx" in
        remember (str_of_nat n) as x eqn:Hx in Heq
    end;
    simpl in Heq; simplify_eq; try done;
    f_equal; by apply str_of_nat_inj.
Qed.

Lemma unique_ids_distinct_within_system_sample :
  ZoneHumiditySensor 0 0 = ZoneHumiditySensor 0 0.
Proof.
  apply (@unique_ids_distinct_within_system sample_utils
           (ZoneHumiditySensor 0 0) (ZoneHumiditySensor 0 0)
           (HomeAssistant.system_coordinator sample_house_hass)
           (PyStr "mypyllant_s1_zone_humidity_0"));
    [reflexivity|discriminate|discriminate|reflexivity|reflexivity].
Defined.
